(** * Node lifecycle orchestration of the scheduler-k3s plugin

    A shallow embedding of [plugins/scheduler-k3s/subcommands.go]:
    [CommandInitialize] (bootstrap), [CommandClusterAdd] (join),
    [CommandClusterRemove] (removal) and [CommandSet], together with the
    string helpers of the Go standard library they rely on.

    External collaborators (the command executor, the cluster API client,
    the network stack, the random source, the file system) are gathered in
    a record of responses, [World]; every call a command makes to one of
    them is appended to a trace of [Event]s, so that statements about what
    was (not) executed, and in which order, are statements about traces. *)

From Stdlib Require Import ZArith List String Ascii Bool.
From Stdlib.Strings Require Import Byte.
From stdpp Require Import base gmap strings list.
Import ListNotations.

Local Open Scope string_scope.
Local Open Scope list_scope.

(** ** Strings, as the Go standard library treats them

    Go strings are byte sequences; [string] (a list of 8-bit [ascii]) is the
    same data.  Where the library reads a string as text it decodes UTF-8;
    that decoding is part of the model, so that [strings.ToLower] is the
    library's on every byte sequence, valid UTF-8 or not. *)

(** A Go [byte] as a number, and the conversion [byte(x)] of a number. *)
Definition byteOf (c : ascii) : Z := Z.of_N (N_of_ascii c).

Definition charOf (x : Z) : ascii := ascii_of_N (Z.to_N (x mod 256)).

(** The conversions [int32(x)] and [uint32(x)], with their wrap-around. *)
Definition int32 (x : Z) : Z := ((x + 2 ^ 31) mod 2 ^ 32 - 2 ^ 31)%Z.

Definition uint32 (x : Z) : Z := (x mod 2 ^ 32)%Z.

(** [s[i]], for [i] within the string. *)
Definition byteAt (s : string) (i : nat) : Z :=
  match String.get i s with
  | Some c => byteOf c
  | None => 0%Z
  end.

(** *** [unicode/utf8] *)

Module utf8.

Local Open Scope Z_scope.

Definition RuneError : Z := 0xFFFD.
Definition RuneSelf : Z := 0x80.
Definition MaxRune : Z := 0x10FFFF.
Definition surrogateMin : Z := 0xD800.
Definition surrogateMax : Z := 0xDFFF.

Definition tx : Z := 0x80.
Definition t2 : Z := 0xC0.
Definition t3 : Z := 0xE0.
Definition t4 : Z := 0xF0.

Definition maskx : Z := 0x3F.
Definition mask2 : Z := 0x1F.
Definition mask3 : Z := 0x0F.
Definition mask4 : Z := 0x07.

Definition rune1Max : Z := 2 ^ 7 - 1.
Definition rune2Max : Z := 2 ^ 11 - 1.
Definition rune3Max : Z := 2 ^ 16 - 1.

Definition locb : Z := 0x80.
Definition hicb : Z := 0xBF.

(** The codes of the table [first]: the high nibble is an byteAt into
    [acceptRanges] (or [F] for the one-byte cases), the low nibble the
    length of the sequence. *)
Definition xx : Z := 0xF1.
Definition as_ : Z := 0xF0.
Definition s1 : Z := 0x02.
Definition s2 : Z := 0x13.
Definition s3 : Z := 0x03.
Definition s4 : Z := 0x23.
Definition s5 : Z := 0x34.
Definition s6 : Z := 0x04.
Definition s7 : Z := 0x44.

(** The table [first], by ranges of the first byte. *)
Definition first (b : Z) : Z :=
  if b <? 0x80 then as_             (* 0x00-0x7F *)
  else if b <? 0xC2 then xx         (* 0x80-0xC1 *)
  else if b <? 0xE0 then s1         (* 0xC2-0xDF *)
  else if b =? 0xE0 then s2
  else if b <? 0xED then s3         (* 0xE1-0xEC *)
  else if b =? 0xED then s4
  else if b <? 0xF0 then s3         (* 0xEE-0xEF *)
  else if b =? 0xF0 then s5
  else if b <? 0xF4 then s6         (* 0xF1-0xF3 *)
  else if b =? 0xF4 then s7
  else xx.                          (* 0xF5-0xFF *)

(** The table [acceptRanges]: the bounds of the second byte. *)
Definition acceptRanges (i : Z) : Z * Z :=
  if i =? 0 then (locb, hicb)
  else if i =? 1 then (0xA0, hicb)
  else if i =? 2 then (locb, 0x9F)
  else if i =? 3 then (0x90, hicb)
  else if i =? 4 then (locb, 0x8F)
  else (0, 0).

(** [DecodeRuneInString] from the point where the first byte announces a
    sequence of [sz] bytes whose second byte lies in [accept]. *)
Definition decodeSequence (sz : nat) (accept : Z * Z) (s : string) : Z * nat :=
  let n := String.length s in
  let s0 := byteAt s 0 in
  if (n <? sz)%nat then (RuneError, 1%nat) else
  let s1 := byteAt s 1 in
  if (s1 <? fst accept) || (snd accept <? s1) then (RuneError, 1%nat) else
  if (sz <=? 2)%nat then
    (Z.lor (Z.shiftl (Z.land s0 mask2) 6) (Z.land s1 maskx), 2%nat)
  else
  let s2 := byteAt s 2 in
  if (s2 <? locb) || (hicb <? s2) then (RuneError, 1%nat) else
  if (sz <=? 3)%nat then
    (Z.lor (Z.lor (Z.shiftl (Z.land s0 mask3) 12) (Z.shiftl (Z.land s1 maskx) 6))
       (Z.land s2 maskx), 3%nat)
  else
  let s3 := byteAt s 3 in
  if (s3 <? locb) || (hicb <? s3) then (RuneError, 1%nat) else
  (Z.lor (Z.lor (Z.lor (Z.shiftl (Z.land s0 mask4) 18) (Z.shiftl (Z.land s1 maskx) 12))
            (Z.shiftl (Z.land s2 maskx) 6))
     (Z.land s3 maskx), 4%nat).

(** [utf8.DecodeRuneInString]: the first rune of [s] and its width in bytes;
    [(RuneError, 1)] for a byte that starts no valid sequence. *)
Definition DecodeRuneInString (s : string) : Z * nat :=
  let n := String.length s in
  if (n <? 1)%nat then (RuneError, 0%nat) else
  let s0 := byteAt s 0 in
  let x := first s0 in
  if x >=? as_ then
    let mask := Z.shiftr (int32 (Z.shiftl x 31)) 31 in
    (Z.lor (Z.land s0 (Z.lnot mask)) (Z.land RuneError mask), 1%nat)
  else
    decodeSequence (Z.to_nat (Z.land x 7)) (acceptRanges (Z.shiftr x 4)) s.

Definition bytes (l : list Z) : string :=
  fold_right (fun x s => String (charOf x) s) EmptyString l.

(** [utf8.AppendRune] to an empty buffer: the UTF-8 encoding of [r], that of
    [RuneError] when [r] is no valid rune. *)
Definition AppendRune (r : Z) : string :=
  let i := uint32 r in
  let three (r : Z) :=
    bytes [Z.lor t3 (Z.shiftr r 12 mod 256);
           Z.lor tx (Z.land (Z.shiftr r 6 mod 256) maskx);
           Z.lor tx (Z.land (r mod 256) maskx)] in
  if i <=? rune1Max then bytes [r]
  else if i <=? rune2Max then
    bytes [Z.lor t2 (Z.shiftr r 6 mod 256); Z.lor tx (Z.land (r mod 256) maskx)]
  else if (MaxRune <? i) || ((surrogateMin <=? i) && (i <=? surrogateMax)) then
    three RuneError
  else if i <=? rune3Max then three r
  else
    bytes [Z.lor t4 (Z.shiftr r 18 mod 256);
           Z.lor tx (Z.land (Z.shiftr r 12 mod 256) maskx);
           Z.lor tx (Z.land (Z.shiftr r 6 mod 256) maskx);
           Z.lor tx (Z.land (r mod 256) maskx)].

End utf8.

(** *** [unicode] *)

Module unicode.

Local Open Scope Z_scope.

Definition MaxASCII : Z := 0x7F.

(** [unicode.ToLower]: ASCII is mapped in place; every other rune goes
    through the case tables, [To(LowerCase, r)], which are those of the Go
    release the program is built with and are left open here. *)
Definition ToLower (To_LowerCase : Z -> Z) (r : Z) : Z :=
  if r <=? MaxASCII then
    if (65 <=? r) && (r <=? 90) then r + (97 - 65) else r
  else int32 (To_LowerCase r).

End unicode.

(** *** [strings] *)

Definition isUpper (c : ascii) : bool :=
  let n := N_of_ascii c in (65 <=? n)%N && (n <=? 90)%N.

Definition toLowerChar (c : ascii) : ascii :=
  if isUpper c then ascii_of_N (N_of_ascii c + 32) else c.

(** The loop of [strings.Map] over the runes of [s], as [range s] reads
    them: each rune is mapped and written back in UTF-8, and dropped when
    the mapping returns a negative value; [skip] counts the bytes of the
    current rune still to pass over.  The library copies the prefix that the
    mapping leaves alone rather than writing it again; the decoder accepts
    shortest encodings only, so a rune read from valid bytes is written back
    as those bytes. *)
Fixpoint mapRunes (mapping : Z -> Z) (skip : nat) (s : string) : string :=
  match s with
  | EmptyString => EmptyString
  | String _ rest =>
      match skip with
      | S k => mapRunes mapping k rest
      | O =>
          let '(c, width) := utf8.DecodeRuneInString s in
          let r := mapping c in
          (if (r >=? 0)%Z then utf8.AppendRune r else EmptyString)
            +:+ mapRunes mapping (width - 1) rest
      end
  end.

(** [strings.Map] *)
Definition Map (mapping : Z -> Z) (s : string) : string := mapRunes mapping 0 s.

Fixpoint isASCII (s : string) : bool :=
  match s with
  | EmptyString => true
  | String c r => (byteOf c <? utf8.RuneSelf)%Z && isASCII r
  end.

Fixpoint hasUpper (s : string) : bool :=
  match s with
  | EmptyString => false
  | String c r => isUpper c || hasUpper r
  end.

(** The byte loop of [strings.ToLower] on an ASCII string. *)
Fixpoint lowerBytes (s : string) : string :=
  match s with
  | EmptyString => EmptyString
  | String c r => String (toLowerChar c) (lowerBytes r)
  end.

(** [strings.ToLower]: an ASCII string is lower-cased byte by byte (and
    returned as it is when it has no upper-case letter); any other string is
    mapped rune by rune with [unicode.ToLower]. *)
Definition ToLower (To_LowerCase : Z -> Z) (s : string) : string :=
  if isASCII s then
    if hasUpper s then lowerBytes s else s
  else Map (unicode.ToLower To_LowerCase) s.

(** [strings.ReplaceAll s old new] for one-character [old] and [new], the
    only way the commands use it ([ReplaceAll(.., ".", "-")]); the
    replacement is byte for byte. *)
Fixpoint ReplaceAll (s : string) (old new : ascii) : string :=
  match s with
  | EmptyString => EmptyString
  | String c r =>
      String (if Ascii.eqb c old then new else c) (ReplaceAll r old new)
  end.

(** [strings.Split s sep] for a one-character separator: one more piece than
    there are separators, so never the empty list. *)
Fixpoint Split (s : string) (sep : ascii) : list string :=
  match s with
  | EmptyString => [EmptyString]
  | String c r =>
      if Ascii.eqb c sep then EmptyString :: Split r sep
      else match Split r sep with
           | [] => [String c EmptyString]
           | p :: ps => String c p :: ps
           end
  end.

Definition hexDigitUpper (n : N) : ascii :=
  if (n <? 10)%N then ascii_of_N (48 + n) else ascii_of_N (55 + n).

(** [fmt.Sprintf("%X", b)] for a byte slice: two upper-case hexadecimal
    digits per byte. *)
Fixpoint SprintfX (b : list byte) : string :=
  match b with
  | [] => EmptyString
  | x :: r =>
      let n := Byte.to_N x in
      String (hexDigitUpper (n / 16)) (String (hexDigitUpper (n mod 16)) (SprintfX r))
  end.

Definition digit (n : N) : ascii := ascii_of_N (48 + n).

(** Decimal rendering of an octet, as [net.IP.String] prints it. *)
Definition octet (b : byte) : string :=
  let n := Byte.to_N b in
  if (n <? 10)%N then String (digit n) EmptyString
  else if (n <? 100)%N then String (digit (n / 10)) (String (digit (n mod 10)) EmptyString)
  else String (digit (n / 100))
         (String (digit ((n / 10) mod 10)) (String (digit (n mod 10)) EmptyString)).

(** ** Network data ([net.Interface], [net.Addr], [net.IP]) *)

(** An address is, for the commands, either one on which [To4()] is not nil
    (four octets) or one on which it is nil (kept as its printed form). *)
Inductive IP : Type :=
| IPv4 (a b c d : byte)
| IPv6 (printed : string).

Definition To4 (ip : IP) : bool :=
  match ip with IPv4 _ _ _ _ => true | IPv6 _ => false end.

Definition IP_String (ip : IP) : string :=
  match ip with
  | IPv4 a b c d => octet a +:+ "." +:+ octet b +:+ "." +:+ octet c +:+ "." +:+ octet d
  | IPv6 s => s
  end.

(** [net.Addr]: the commands only look at values of dynamic type [*net.IPNet]. *)
Inductive Addr : Type :=
| IPNet (ip : IP)
| OtherAddr.

(** ** Errors and results

    A Go [error] built by [fmt.Errorf format args...] is kept as the format
    string and its arguments: two errors are the same condition exactly when
    they come from the same format with the same arguments.  [External] is an
    error value handed back by a collaborator. *)

Inductive error : Type :=
| External (msg : string)
| Errorf (format : string) (args : list fmtArg)
with fmtArg : Type :=
| ArgS (s : string)          (* %s *)
| ArgD (d : Z)               (* %d *)
| ArgW (e : error)           (* %w *)
| ArgNil.                    (* %w given a nil error *)

(** A Go pair [(value, err)]. *)
Inductive result (A : Type) : Type :=
| Ok (a : A)
| Err (e : error).
Arguments Ok {A} a.
Arguments Err {A} e.

Record Interface : Type := {
  iface_Name : string;
  iface_Addrs : result (list Addr)     (* iface.Addrs() *)
}.

(** ** Inputs and outputs of the collaborators *)

Record ExecCommandInput : Type := {
  Exec_Command : string;
  Exec_Args : list string;
  Exec_StreamStdio : bool;
  Exec_CaptureOutput : bool
}.

Record SshCommandInput : Type := {
  Ssh_Command : string;
  Ssh_Args : list string;
  Ssh_AllowUknownHosts : bool;
  Ssh_RemoteHost : string;
  Ssh_StreamStdio : bool;
  Ssh_Sudo : bool
}.

Record ExecCommandResponse : Type := {
  Stdout : string;
  ExitCode : Z
}.

Record Response : Type := {
  StatusCode : Z;
  Body : string
}.

Record Node : Type := {
  node_Name : string;
  node_Ready : bool;
  node_Roles : list string;
  node_Version : string;
  node_RemoteHost : string
}.

Record Manifest : Type := {
  manifest_Name : string;
  manifest_Version : string;
  manifest_Path : string
}.

Definition KubernetesManifests : list Manifest :=
  [ {| manifest_Name := "system-upgrader";
       manifest_Version := "0.13.2";
       manifest_Path := "https://github.com/rancher/system-upgrade-controller/releases/download/v0.13.2/system-upgrade-controller.yaml" |} ].

(** The two label maps have one entry each, so the order of iteration over
    them is immaterial; they are kept as association lists. *)
Definition ServerLabels : list (string * string) :=
  [ ("svccontroller.k3s.cattle.io/enablelb", "true") ].

Definition WorkerLabels : list (string * string) :=
  [ ("node-role.kubernetes.io/role", "worker") ].

Definition RegistryConfigPath : string := "/etc/rancher/k3s/registries.yaml".

(** ** Calls made to the outside, in the order they are made *)

Inductive Event : Type :=
| EvLog (fn msg : string)
| EvExec (i : ExecCommandInput)                  (* common.CallExecCommand *)
| EvSsh (i : SshCommandInput)                    (* common.CallSshCommand *)
| EvRandRead (n : nat)                           (* rand.Read on n bytes *)
| EvHttpGet (url : string)
| EvCreateTemp (pattern : string)
| EvClose (name : string)
| EvWriteSliceToFile (name : string) (lines : list string) (mode : Z)
| EvStat (name : string)
| EvRemove (name : string)
| EvPropertySet (plugin appName property value : string)
| EvTouchFile (path : string)
| EvNewKubernetesClient
| EvApplyKubernetesManifest (path : string)
| EvLabelNode (name key value : string)
| EvAnnotateNode (name key value : string)
| EvReadTemplate (path : string)
| EvWriteFile (path contents : string) (mode : Z)
| EvInstallHelmCharts
| EvWaitForNodeToExist (name : string) (retryCount : nat)
| EvCopyRegistryToNode (remoteHost : string)
| EvGetNode (name : string)
| EvDeleteNode (name : string).

(** ** The collaborators

    What each collaborator answers.  The commands are deterministic given
    these answers; a claim about every run is a claim about every [World].
    The case tables of the [unicode] package belong here too: they change
    with the Go release, and no statement below depends on what they hold. *)

Record World : Type := {
  isK3sInstalled : option error;                 (* nil: installed *)
  DefaultNetworkInterface : string;
  net_Interfaces : result (list Interface);
  CallExecCommand : ExecCommandInput -> result ExecCommandResponse;
  CallSshCommand : SshCommandInput -> result ExecCommandResponse;
  rand_Read : nat -> result (nat -> byte);       (* k-th call: a byte source *)
  resty_Get : string -> result (option Response);
  os_CreateTemp : string -> result string;       (* the file's name *)
  file_Close : string -> option error;
  WriteSliceToFile : string -> list string -> Z -> option error;
  os_Stat : string -> result Z;                  (* the file's size *)
  TouchFile : string -> option error;
  NewKubernetesClient : option error;
  ApplyKubernetesManifest : string -> option error;
  LabelNode : string -> string -> string -> option error;
  AnnotateNode : string -> string -> string -> option error;
  templates_ReadFile : string -> result string;
  os_WriteFile : string -> string -> Z -> option error;
  installHelmCharts : option error;
  url_Parse_Hostname : string -> result string;  (* url.Parse, then Hostname() *)
  waitForNodeToExist : string -> nat -> result (list Node);
  copyRegistryToNode : string -> option error;
  GetNode : string -> result Node;
  DeleteNode : string -> option error;
  PropertyWrite : string -> string -> string -> string -> option error;
  unicode_To_LowerCase : Z -> Z                  (* unicode.To(unicode.LowerCase, r) *)
}.

(** ** Process state: the persisted configuration, the number of reads of
    the random source so far, and the trace. *)

Record State : Type := {
  store : gmap (string * string) string;
  nrand : nat;
  trace : list Event
}.

Definition initState (cfg : gmap (string * string) string) : State :=
  {| store := cfg; nrand := 0; trace := [] |}.

(** ** A state-and-error monad for the commands *)

Definition M (A : Type) : Type := State -> result A * State.

Definition ret {A} (a : A) : M A := fun st => (Ok a, st).

Definition fail {A} (e : error) : M A := fun st => (Err e, st).

Definition bind {A B} (m : M A) (k : A -> M B) : M B :=
  fun st =>
    match m st with
    | (Ok a, st') => k a st'
    | (Err e, st') => (Err e, st')
    end.

Notation "x <- m ;; k" := (bind m (fun x => k))
  (at level 90, m at level 80, right associativity).
Notation "m ;;; k" := (bind m (fun _ => k))
  (at level 90, right associativity).

Definition emit (e : Event) : M unit :=
  fun st => (Ok tt, {| store := store st; nrand := nrand st; trace := trace st ++ [e] |}).

(** A call to a collaborator returning [(value, err)]. *)
Definition call {A} (e : Event) (r : result A) : M A :=
  fun st => (r, {| store := store st; nrand := nrand st; trace := trace st ++ [e] |}).

(** A call to a collaborator returning only [err]. *)
Definition callE (e : Event) (r : option error) : M unit :=
  call e (match r with None => Ok tt | Some x => Err x end).

(** [if err != nil { return fmt.Errorf(format, err) }] *)
Definition wrap {A} (format : string) (m : M A) : M A :=
  fun st =>
    match m st with
    | (Err e, st') => (Err (Errorf format [ArgW e]), st')
    | r => r
    end.

(** [if cond { return e }] *)
Definition failIf (cond : bool) (e : error) : M unit :=
  if cond then fail e else ret tt.

(** [defer]: the event happens on every way out of [m]. *)
Definition defer {A} (e : Event) (m : M A) : M A :=
  fun st =>
    let (r, st') := m st in
    (r, {| store := store st'; nrand := nrand st'; trace := trace st' ++ [e] |}).

Fixpoint forEach {A} (l : list A) (body : A -> M unit) : M unit :=
  match l with
  | [] => ret tt
  | x :: r => body x ;;; forEach r body
  end.

Definition log (fn msg : string) : M unit := emit (EvLog fn msg).

(** [rand.Read(b)] with [len(b) = n]: on success all [n] bytes are filled. *)
Definition randRead (w : World) (n : nat) : M (list byte) :=
  fun st =>
    let st' := {| store := store st; nrand := S (nrand st);
                  trace := trace st ++ [EvRandRead n] |} in
    match rand_Read w (nrand st) with
    | Ok src => (Ok (map src (seq 0 n)), st')
    | Err e => (Err e, st')
    end.

Definition liftR {A} (r : result A) : M A := fun st => (r, st).

(** A call made as a statement: what it returns is dropped. *)
Definition discard {A} (m : M A) : M unit :=
  fun st => let (_, st') := m st in (Ok tt, st').

(** [if err != nil { return e }], whatever [err] was. *)
Definition orFail {A} (e : error) (m : M A) : M A :=
  fun st =>
    match m st with
    | (Err _, st') => (Err e, st')
    | r => r
    end.

(** ** Pure parts of the commands *)

(** The inner loop of lines 50-56 (and 314-320): every address of dynamic
    type [*net.IPNet] whose [To4()] is not nil overwrites [serverIp]. *)
Fixpoint scanAddrs (addr : list Addr) (serverIp : string) : string :=
  match addr with
  | [] => serverIp
  | a :: r =>
      scanAddrs r
        match a with
        | IPNet ip => if To4 ip then IP_String ip else serverIp
        | OtherAddr => serverIp
        end
  end.

(** The outer loop of lines 44-58 (and 308-322). *)
Fixpoint scanInterfaces (networkInterface : string) (ifaces : list Interface)
    (serverIp : string) : result string :=
  match ifaces with
  | [] => Ok serverIp
  | iface :: r =>
      if String.eqb (iface_Name iface) networkInterface then
        match iface_Addrs iface with
        | Err err =>
            Err (Errorf "Unable to get network addresses for interface %s: %w"
                   [ArgS networkInterface; ArgW err])
        | Ok addr => scanInterfaces networkInterface r (scanAddrs addr serverIp)
        end
      else scanInterfaces networkInterface r serverIp
  end.

(** Lines 165 and 456:
    [strings.ReplaceAll(strings.ToLower(fmt.Sprintf("ip-%s-%s", nodeName, fmt.Sprintf("%X", b))), ".", "-")] *)
Definition newNodeName (To_LowerCase : Z -> Z) (nodeName : string) (b : list byte)
    : string :=
  ReplaceAll (ToLower To_LowerCase ("ip-" +:+ nodeName +:+ "-" +:+ SprintfX b)) "." "-".

(** Lines 167-193: the flags of the bootstrap installer. *)
Definition initializeArgs (nodeName token : string) (taintScheduling : bool)
    : list string :=
  let args :=
    [ "--cluster-init";
      "--disable"; "local-storage";
      "--etcd-expose-metrics";
      "--flannel-backend=wireguard-native";
      "--kube-controller-manager-arg"; "bind-address=0.0.0.0";
      "--kube-proxy-arg"; "metrics-bind-address=0.0.0.0";
      "--kube-scheduler-arg"; "bind-address=0.0.0.0";
      "--kube-controller-manager-arg"; "terminated-pod-gc-threshold=10";
      "--node-name"; nodeName;
      "--write-kubeconfig-mode"; "0644";
      "--token"; token ] in
  if taintScheduling
  then args ++ ["--node-taint"; "CriticalAddonsOnly=true:NoSchedule"]
  else args.

(** Lines 458-502: the flags of the join installer. *)
Definition clusterAddArgs (role nodeName serverIp token : string)
    (taintScheduling : bool) : list string :=
  let args :=
    [ "--disable"; "local-storage";
      "--flannel-backend=wireguard-native";
      "--node-name"; nodeName;
      "--server"; "https://" +:+ serverIp +:+ ":6443";
      "--token"; token ] in
  let args :=
    if String.eqb role "server" then
      (["server"] ++ args)
        ++ ["--etcd-expose-metrics"]
        ++ ["--kube-controller-manager-arg"; "bind-address=0.0.0.0"]
        ++ ["--kube-proxy-arg"; "metrics-bind-address=0.0.0.0"]
        ++ ["--kube-scheduler-arg"; "bind-address=0.0.0.0"]
        ++ ["--kube-controller-manager-arg"; "terminated-pod-gc-threshold=10"]
        ++ ["--write-kubeconfig-mode"; "0644"]
    else
      args
        ++ ["--disable-etcd"]
        ++ ["--disable-apiserver"]
        ++ ["--disable-controller-manager"]
        ++ ["--disable-scheduler"]
        ++ ["--kube-proxy-arg"; "metrics-bind-address=0.0.0.0"] in
  if taintScheduling
  then args ++ ["--node-taint"; "CriticalAddonsOnly=true:NoSchedule"]
  else args.

(** [DefaultProperties] and [GlobalProperties], handed to the property store. *)
Definition DefaultProperties : list (string * string) :=
  [ ("deploy-timeout", ""); ("letsencrypt-server", ""); ("image-pull-secrets", "");
    ("namespace", ""); ("rollback-on-failure", "") ].

Definition GlobalProperties : list (string * bool) :=
  [ ("deploy-timeout", true); ("image-pull-secrets", true);
    ("letsencrypt-email-prod", true); ("letsencrypt-email-stag", true);
    ("namespace", true); ("network-interface", true);
    ("rollback-on-failure", true); ("token", true) ].

(** ** The persisted configuration *)

(** Modelled from the spec: the reader of the global [token] option, which is
    not part of the file embedded here; an unset option reads as the empty
    string. *)
Definition getGlobalGlobalToken : M string :=
  fun st => (Ok (default "" (store st !! ("--global", "token"))), st).

Section Commands.

Variable w : World.

(** Modelled from the spec: the reader of the global [network-interface]
    option, which is not part of the file embedded here; an unset option
    reads as its declared default. *)
Definition getGlobalNetworkInterface : M string :=
  fun st =>
    (Ok (default (DefaultNetworkInterface w)
           (store st !! ("--global", "network-interface"))), st).

(** Modelled from the spec: [common.CommandPropertySet], which is not part of
    the file embedded here.  The persisted configuration is a key/value store
    of options, global or per application; setting an option makes later
    reads of it return the value set, unless persisting fails, in which case
    nothing is stored. *)
Definition CommandPropertySet (pluginName appName property value : string)
    (properties : list (string * string))
    (globalProperties : list (string * bool)) : M unit :=
  fun st =>
    let tr := trace st ++ [EvPropertySet pluginName appName property value] in
    match PropertyWrite w pluginName appName property value with
    | Some e => (Err e, {| store := store st; nrand := nrand st; trace := tr |})
    | None =>
        (Ok tt, {| store := <[ (appName, property) := value ]> (store st);
                   nrand := nrand st; trace := tr |})
    end.

(** [CommandSet] (lines 718-721): the call is a statement, whatever it
    reports is dropped, and nil is returned. *)
Definition CommandSet (appName property value : string) : M unit :=
  discard (CommandPropertySet "scheduler-k3s" appName property value
             DefaultProperties GlobalProperties) ;;;
  ret tt.

Definition exec (i : ExecCommandInput) : M ExecCommandResponse :=
  call (EvExec i) (CallExecCommand w i).

Definition ssh (i : SshCommandInput) : M ExecCommandResponse :=
  call (EvSsh i) (CallSshCommand w i).

Definition aptPackages : list string :=
  [ "-y"; "install"; "ca-certificates"; "curl"; "open-iscsi"; "nfs-common"; "wireguard" ].

(** The label loops of lines 244-258 and 548-562.  Their check of [err]
    before the call never fires: [err] is nil whenever the loop is entered
    or re-entered. *)
Definition labelNodes (nodeName : string) (labels : list (string * string)) : M unit :=
  forEach labels (fun '(key, value) =>
    log "LogInfo2Quiet" ("Labeling node " +:+ key +:+ "=" +:+ value) ;;;
    wrap "Unable to patch node: %w"
      (callE (EvLabelNode nodeName key value) (LabelNode w nodeName key value))).

(** *** [CommandInitialize] (lines 21-280)

    The listener for interrupt signals (lines 26-35) runs beside the
    workflow and is left out; the workflow itself is sequential. *)
Definition CommandInitialize (taintScheduling : bool) : M unit :=
  failIf (match isK3sInstalled w with None => true | Some _ => false end)
    (Errorf "k3s already installed, cannot re-initialize k3s" []) ;;;
  networkInterface <- getGlobalNetworkInterface ;;
  ifaces <- wrap "Unable to get network interfaces: %w" (liftR (net_Interfaces w)) ;;
  serverIp <- liftR (scanInterfaces networkInterface ifaces "") ;;
  failIf (String.length serverIp =? 0)%nat
    (Errorf "Unable to determine server ip address from network-interface %s"
       [ArgS networkInterface]) ;;;
  log "LogInfo1Quiet" "Initializing k3s" ;;;
  log "LogInfo2Quiet" "Updating apt" ;;;
  aptUpdateCmd <- wrap "Unable to call apt-get update command: %w"
    (exec {| Exec_Command := "apt-get"; Exec_Args := ["update"];
             Exec_StreamStdio := true; Exec_CaptureOutput := false |}) ;;
  failIf (negb (ExitCode aptUpdateCmd =? 0)%Z)
    (Errorf "Invalid exit code from apt-get update command: %d"
       [ArgD (ExitCode aptUpdateCmd)]) ;;;
  log "LogInfo2Quiet" "Installing k3s dependencies" ;;;
  aptInstallCmd <- wrap "Unable to call apt-get install command: %w"
    (exec {| Exec_Command := "apt-get"; Exec_Args := aptPackages;
             Exec_StreamStdio := true; Exec_CaptureOutput := false |}) ;;
  failIf (negb (ExitCode aptInstallCmd =? 0)%Z)
    (Errorf "Invalid exit code from apt-get install command: %d"
       [ArgD (ExitCode aptInstallCmd)]) ;;;
  log "LogInfo2Quiet" "Downloading k3s installer" ;;;
  resp <- wrap "Unable to download k3s installer: %w"
    (call (EvHttpGet "https://get.k3s.io") (resty_Get w "https://get.k3s.io")) ;;
  resp <- match resp with
          | None => fail (Errorf "Missing response from k3s installer download: %w" [ArgNil])
          | Some resp => ret resp
          end ;;
  failIf (negb (StatusCode resp =? 200)%Z)
    (Errorf "Invalid status code for k3s installer script: %d" [ArgD (StatusCode resp)]) ;;;
  f <- wrap "Unable to create temporary file for k3s installer: %w"
    (call (EvCreateTemp "sample") (os_CreateTemp w "sample")) ;;
  defer (EvRemove f) (
    wrap "Unable to close k3s installer file: %w"
      (callE (EvClose f) (file_Close w f)) ;;;
    (let lines := Split (Body resp) "010" in
     wrap "Unable to write k3s installer to file: %w"
       (callE (EvWriteSliceToFile f lines 493) (WriteSliceToFile w f lines 493))) ;;;
    size <- wrap "Unable to get k3s installer file size: %w"
      (call (EvStat f) (os_Stat w f)) ;;
    failIf (size =? 0)%Z (Errorf "Invalid k3s installer filesize" []) ;;;
    token <- getGlobalGlobalToken ;;
    (if (String.length token =? 0)%nat then
       b <- wrap "Unable to generate random node name: %w" (randRead w 5) ;;
       (* [token := ...] declares a new variable, local to this block *)
       let token := ToLower (unicode_To_LowerCase w) (SprintfX b) in
       wrap "Unable to set k3s token: %w" (CommandSet "--global" "token" token)
     else ret tt) ;;;
    let nodeName := serverIp in
    b <- wrap "Unable to generate random node name: %w" (randRead w 5) ;;
    let nodeName := newNodeName (unicode_To_LowerCase w) nodeName b in
    let args := initializeArgs nodeName token taintScheduling in
    log "LogInfo2Quiet" "Running k3s installer" ;;;
    installerCmd <- wrap "Unable to call k3s installer command: %w"
      (exec {| Exec_Command := f; Exec_Args := args;
               Exec_StreamStdio := true; Exec_CaptureOutput := false |}) ;;
    failIf (negb (ExitCode installerCmd =? 0)%Z)
      (Errorf "Invalid exit code from k3s installer command: %d"
         [ArgD (ExitCode installerCmd)]) ;;;
    orFail (Errorf "Error creating initial registries.yaml file" [])
      (callE (EvTouchFile RegistryConfigPath) (TouchFile w RegistryConfigPath)) ;;;
    log "LogInfo2Quiet" "Setting registries.yaml permissions" ;;;
    registryAclCmd <- wrap "Unable to call setfacl command: %w"
      (exec {| Exec_Command := "setfacl";
               Exec_Args := ["-m"; "user:dokku:rwx"; RegistryConfigPath];
               Exec_StreamStdio := true; Exec_CaptureOutput := false |}) ;;
    failIf (negb (ExitCode registryAclCmd =? 0)%Z)
      (Errorf "Invalid exit code from setfacl command: %d"
         [ArgD (ExitCode registryAclCmd)]) ;;;
    wrap "Unable to create kubernetes client: %w"
      (callE EvNewKubernetesClient (NewKubernetesClient w)) ;;;
    forEach KubernetesManifests (fun manifest =>
      log "LogInfo2Quiet"
        ("Installing " +:+ manifest_Name manifest +:+ "@" +:+ manifest_Version manifest) ;;;
      wrap "Unable to apply kubernetes manifest: %w"
        (callE (EvApplyKubernetesManifest (manifest_Path manifest))
           (ApplyKubernetesManifest w (manifest_Path manifest)))) ;;;
    labelNodes nodeName ServerLabels ;;;
    log "LogInfo2Quiet" "Updating traefik config" ;;;
    contents <- wrap "Unable to read traefik config template: %w"
      (call (EvReadTemplate "templates/traefik-config.yaml")
         (templates_ReadFile w "templates/traefik-config.yaml")) ;;
    wrap "Unable to write traefik config: %w"
      (callE (EvWriteFile "/var/lib/rancher/k3s/server/manifests/traefik-custom.yaml" contents 384)
         (os_WriteFile w "/var/lib/rancher/k3s/server/manifests/traefik-custom.yaml" contents 384)) ;;;
    log "LogInfo2Quiet" "Installing helm charts" ;;;
    wrap "Unable to install helm charts: %w"
      (callE EvInstallHelmCharts (installHelmCharts w)) ;;;
    log "LogVerboseQuiet" "Done" ;;;
    ret tt).

Definition sshInput (command : string) (args : list string)
    (allowUknownHosts : bool) (remoteHost : string) (sudo : bool) : SshCommandInput :=
  {| Ssh_Command := command; Ssh_Args := args;
     Ssh_AllowUknownHosts := allowUknownHosts; Ssh_RemoteHost := remoteHost;
     Ssh_StreamStdio := true; Ssh_Sudo := sudo |}.

Definition k3sVersionInput : ExecCommandInput :=
  {| Exec_Command := "k3s"; Exec_Args := ["--version"];
     Exec_StreamStdio := false; Exec_CaptureOutput := true |}.

(** *** [CommandClusterAdd] (lines 283-576) *)
Definition CommandClusterAdd (role remoteHost : string)
    (allowUknownHosts taintScheduling : bool) : M unit :=
  failIf (match isK3sInstalled w with None => false | Some _ => true end)
    (Errorf "k3s not installed, cannot join cluster" []) ;;;
  failIf (negb (String.eqb role "server") && negb (String.eqb role "worker"))
    (Errorf "Invalid server-type: %s" [ArgS role]) ;;;
  token <- getGlobalGlobalToken ;;
  failIf (String.length token =? 0)%nat (Errorf "Missing k3s token" []) ;;;
  failIf (taintScheduling && String.eqb role "worker")
    (Errorf "Taint scheduling can only be used on the server role" []) ;;;
  networkInterface <- getGlobalNetworkInterface ;;
  ifaces <- wrap "Unable to get network interfaces: %w" (liftR (net_Interfaces w)) ;;
  serverIp <- liftR (scanInterfaces networkInterface ifaces "") ;;
  failIf (String.length serverIp =? 0)%nat
    (Errorf "Unable to determine server ip address from network-interface %s"
       [ArgS networkInterface]) ;;;
  k3sVersionCmd <- wrap "Unable to call k3s version command: %w" (exec k3sVersionInput) ;;
  failIf (negb (ExitCode k3sVersionCmd =? 0)%Z)
    (Errorf "Invalid exit code from k3s --version command: %d"
       [ArgD (ExitCode k3sVersionCmd)]) ;;;
  k3sVersion <-
    match Split (Stdout k3sVersionCmd) "010" with
    | [] => ret ""
    | line0 :: _ =>
        let k3sVersionParts := Split line0 " " in
        if negb (length k3sVersionParts =? 4)%nat
        then fail (Errorf "Unable to get k3s version from k3s --version: %s"
                     [ArgS (Stdout k3sVersionCmd)])
        else ret (nth 2 k3sVersionParts "")
    end ;;
  log "LogDebug" ("k3s version: " +:+ k3sVersion) ;;;
  log "LogInfo1" ("Joining " +:+ remoteHost +:+ " to k3s cluster as " +:+ role) ;;;
  log "LogInfo2Quiet" "Updating apt" ;;;
  aptUpdateCmd <- wrap "Unable to call apt-get update command over ssh: %w"
    (ssh (sshInput "apt-get" ["update"] allowUknownHosts remoteHost true)) ;;
  failIf (negb (ExitCode aptUpdateCmd =? 0)%Z)
    (Errorf "Invalid exit code from apt-get update command over ssh: %d"
       [ArgD (ExitCode aptUpdateCmd)]) ;;;
  log "LogInfo2Quiet" "Installing k3s dependencies" ;;;
  aptInstallCmd <- wrap "Unable to call apt-get install command over ssh: %w"
    (ssh (sshInput "apt-get" aptPackages allowUknownHosts remoteHost true)) ;;
  failIf (negb (ExitCode aptInstallCmd =? 0)%Z)
    (Errorf "Invalid exit code from apt-get install command over ssh: %d"
       [ArgD (ExitCode aptInstallCmd)]) ;;;
  log "LogInfo2Quiet" "Downloading k3s installer" ;;;
  curlTask <- wrap "Unable to call curl command over ssh: %w"
    (ssh (sshInput "curl" ["-o /tmp/k3s-installer.sh"; "https://get.k3s.io"]
            allowUknownHosts remoteHost false)) ;;
  failIf (negb (ExitCode curlTask =? 0)%Z)
    (Errorf "Invalid exit code from curl command over ssh: %d"
       [ArgD (ExitCode curlTask)]) ;;;
  log "LogInfo2Quiet" "Setting k3s installer permissions" ;;;
  chmodCmd <- wrap "Unable to call chmod command over ssh: %w"
    (ssh (sshInput "chmod" ["0755"; "/tmp/k3s-installer.sh"]
            allowUknownHosts remoteHost false)) ;;
  failIf (negb (ExitCode chmodCmd =? 0)%Z)
    (Errorf "Invalid exit code from chmod command over ssh: %d"
       [ArgD (ExitCode chmodCmd)]) ;;;
  hostname <- wrap "failed to parse remote host: %w"
    (liftR (url_Parse_Hostname w remoteHost)) ;;
  let nodeName := hostname in
  b <- wrap "Unable to generate random node name: %w" (randRead w 5) ;;
  let nodeName := newNodeName (unicode_To_LowerCase w) nodeName b in
  let args := clusterAddArgs role nodeName serverIp token taintScheduling in
  log "LogInfo2Quiet" ("Adding " +:+ nodeName +:+ " k3s cluster") ;;;
  joinCmd <- wrap "Unable to call k3s installer command over ssh: %w"
    (ssh (sshInput "/tmp/k3s-installer.sh" args allowUknownHosts remoteHost true)) ;;
  failIf (negb (ExitCode joinCmd =? 0)%Z)
    (Errorf "Invalid exit code from k3s installer command over ssh: %d"
       [ArgD (ExitCode joinCmd)]) ;;;
  wrap "Unable to create kubernetes client: %w"
    (callE EvNewKubernetesClient (NewKubernetesClient w)) ;;;
  log "LogInfo2Quiet" "Waiting for node to exist" ;;;
  nodes <- wrap "Error waiting for pod to exist: %w"
    (call (EvWaitForNodeToExist nodeName 20) (waitForNodeToExist w nodeName 20)) ;;
  failIf (length nodes =? 0)%nat
    (Errorf "Unable to find node after joining cluster, node will not be annotated/labeled appropriately access registry secrets" []) ;;;
  wrap "Error copying registries.yaml to remote host: %w"
    (callE (EvCopyRegistryToNode remoteHost) (copyRegistryToNode w remoteHost)) ;;;
  (let labels := if String.eqb role "worker" then WorkerLabels else ServerLabels in
   labelNodes nodeName labels) ;;;
  log "LogInfo2Quiet" "Annotating node with connection information" ;;;
  (let name0 := match nodes with n :: _ => node_Name n | [] => "" end in
   wrap "Unable to patch node: %w"
     (callE (EvAnnotateNode name0 "dokku.com/remote-host" remoteHost)
        (AnnotateNode w name0 "dokku.com/remote-host" remoteHost))) ;;;
  log "LogVerboseQuiet" "Done" ;;;
  ret tt.

(** *** [CommandClusterRemove] (lines 634-697) *)
Definition CommandClusterRemove (nodeName : string) : M unit :=
  failIf (match isK3sInstalled w with None => false | Some _ => true end)
    (Errorf "k3s not installed, cannot remove node" []) ;;;
  log "LogInfo1Quiet" ("Removing " +:+ nodeName +:+ " from k3s cluster") ;;;
  wrap "Unable to create kubernetes client: %w"
    (callE EvNewKubernetesClient (NewKubernetesClient w)) ;;;
  log "LogVerboseQuiet" "Getting node remote connection information" ;;;
  node <- wrap "Unable to get node: %w"
    (call (EvGetNode nodeName) (GetNode w nodeName)) ;;
  log "LogVerboseQuiet" "Checking if node is a remote node managed by Dokku" ;;;
  failIf (String.eqb (node_RemoteHost node) "")
    (Errorf "Node %s is not a remote node managed by Dokku" [ArgS nodeName]) ;;;
  log "LogVerboseQuiet" "Uninstalling k3s on remote host" ;;;
  removeCmd <- wrap "Unable to call k3s uninstall command over ssh: %w"
    (ssh (sshInput "/usr/local/bin/k3s-uninstall.sh" [] true (node_RemoteHost node) true)) ;;
  failIf (negb (ExitCode removeCmd =? 0)%Z)
    (Errorf "Invalid exit code from k3s uninstall command over ssh: %d"
       [ArgD (ExitCode removeCmd)]) ;;;
  log "LogVerboseQuiet" "Deleting node from k3s cluster" ;;;
  wrap "Unable to delete node: %w"
    (callE (EvDeleteNode nodeName) (DeleteNode w nodeName)) ;;;
  log "LogVerboseQuiet" "Done" ;;;
  ret tt.

End Commands.

(** ** Vocabulary of the specification *)

Fixpoint allChars (p : ascii -> bool) (s : string) : bool :=
  match s with
  | EmptyString => true
  | String c r => p c && allChars p r
  end.

Definition isLowerHex (c : ascii) : bool :=
  let n := N_of_ascii c in
  ((48 <=? n)%N && (n <=? 57)%N) || ((97 <=? n)%N && (n <=? 102)%N).

Definition notUpper (c : ascii) : bool := negb (isUpper c).

Definition notDot (c : ascii) : bool := negb (Ascii.eqb c ".").

(** Entirely lower-case: no character in [A-Z]. *)
Definition lowerCase (s : string) : bool := allChars notUpper s.

Definition isLowerAlnum (c : ascii) : bool :=
  let n := N_of_ascii c in
  ((48 <=? n)%N && (n <=? 57)%N) || ((97 <=? n)%N && (n <=? 122)%N).

Definition isLabelChar (c : ascii) : bool := isLowerAlnum c || Ascii.eqb c "-".

Fixpoint lastChar (s : string) : option ascii :=
  match s with
  | EmptyString => None
  | String c EmptyString => Some c
  | String _ r => lastChar r
  end.

(** A DNS label (RFC 1123, as the cluster checks it): 1 to 63 characters,
    each a lower-case letter, a digit or [-], the first and the last not
    [-]. *)
Definition validDNSLabel (s : string) : bool :=
  (1 <=? String.length s)%nat && (String.length s <=? 63)%nat
  && allChars isLabelChar s
  && match s with String c _ => isLowerAlnum c | EmptyString => false end
  && match lastChar s with Some c => isLowerAlnum c | None => false end.

(** A host name written with ASCII letters, digits, dots and dashes only. *)
Definition isHostChar (c : ascii) : bool :=
  let n := N_of_ascii c in
  ((48 <=? n)%N && (n <=? 57)%N) || ((65 <=? n)%N && (n <=? 90)%N)
  || ((97 <=? n)%N && (n <=? 122)%N) || Ascii.eqb c "." || Ascii.eqb c "-".

Definition plainHost (h : string) : bool := allChars isHostChar h.

Definition dotFree (s : string) : bool := allChars notDot s.

(** Ten lower-case hexadecimal characters. *)
Definition lowerHex10 (h : string) : Prop :=
  String.length h = 10 /\ allChars isLowerHex h = true.

(** The shape of a node name in the words of the specification: the seed
    with its dots replaced by dashes, between [ip-] and the suffix. *)
Definition specNodeName (seed name : string) : Prop :=
  exists h, lowerHex10 h /\ name = "ip-" +:+ ReplaceAll seed "." "-" +:+ "-" +:+ h.

(** The value following the first occurrence of [flag] in an argument list. *)
Fixpoint flagValue (flag : string) (args : list string) : option string :=
  match args with
  | a :: r =>
      if String.eqb a flag
      then match r with v :: _ => Some v | [] => None end
      else flagValue flag r
  | [] => None
  end.

(** The options of the installer's command line that take their value from
    the argument after them; the other arguments stand alone or carry their
    value after [=]. *)
Definition takesValue (a : string) : bool :=
  existsb (String.eqb a)
    [ "--disable"; "--node-name"; "--server"; "--token";
      "--kube-controller-manager-arg"; "--kube-proxy-arg"; "--kube-scheduler-arg";
      "--write-kubeconfig-mode"; "--node-taint" ].

(** An argument list read as a command line: the arguments in option
    position, each with the value it takes, if it takes one. *)
Fixpoint options (args : list string) : list (string * option string) :=
  match args with
  | [] => []
  | a :: rest =>
      if takesValue a then
        match rest with
        | v :: rest' => (a, Some v) :: options rest'
        | [] => [(a, None)]
        end
      else (a, None) :: options rest
  end.

(** The flags of a command line: its arguments in option position. *)
Definition flags (args : list string) : list string := map fst (options args).

(** [x] immediately followed by [y]. *)
Definition adjacent (x y : string) (l : list string) : Prop :=
  exists pre post, l = pre ++ x :: y :: post.

(** The IPv4 addresses, printed, of an address list, in order. *)
Definition ipv4Strings (addr : list Addr) : list string :=
  flat_map (fun a => match a with
                     | IPNet ip => if To4 ip then [IP_String ip] else []
                     | OtherAddr => []
                     end) addr.

(** The addresses carried by the interfaces named [networkInterface]. *)
Definition addrsOf (networkInterface : string) (ifaces : list Interface) : list Addr :=
  flat_map (fun iface =>
              if String.eqb (iface_Name iface) networkInterface
              then match iface_Addrs iface with Ok addr => addr | Err _ => [] end
              else []) ifaces.

(** Every interface named [networkInterface] lets its addresses be listed. *)
Definition addrsListed (networkInterface : string) (ifaces : list Interface) : bool :=
  forallb (fun iface =>
             if String.eqb (iface_Name iface) networkInterface
             then match iface_Addrs iface with Ok _ => true | Err _ => false end
             else true) ifaces.

(** The first and the last IPv4 address of the configured interface. *)
Definition firstIPv4 (networkInterface : string) (ifaces : list Interface) : string :=
  hd "" (ipv4Strings (addrsOf networkInterface ifaces)).

Definition lastIPv4 (networkInterface : string) (ifaces : list Interface) : string :=
  List.last (ipv4Strings (addrsOf networkInterface ifaces)) "".

(** The configured network interface and the persisted token of a
    configuration, as the two readers return them. *)
Definition networkInterfaceOf (w : World) (cfg : gmap (string * string) string) : string :=
  default (DefaultNetworkInterface w) (cfg !! ("--global", "network-interface")).

Definition tokenOf (cfg : gmap (string * string) string) : string :=
  default "" (cfg !! ("--global", "token")).

Definition noServerIp (networkInterface : string) : error :=
  Errorf "Unable to determine server ip address from network-interface %s"
    [ArgS networkInterface].

(** What the address loops can leave in [serverIp]: nothing, or a printed
    IPv4 address. *)
Definition ipv4OrEmpty (s : string) : Prop :=
  s = "" \/ exists ip, To4 ip = true /\ s = IP_String ip.

(** The remote uninstall of [CommandClusterRemove] (lines 670-677). *)
Definition uninstallInput (remoteHost : string) : SshCommandInput :=
  sshInput "/usr/local/bin/k3s-uninstall.sh" [] true remoteHost true.

(** A command was executed and reported exit code 0, with no transport error. *)
Definition succeeded (r : result ExecCommandResponse) : bool :=
  match r with
  | Ok resp => (ExitCode resp =? 0)%Z
  | Err _ => false
  end.

(** The shape of a transport failure: an error that wraps the error of a
    collaborator, or that reports an exit code. *)
Definition transportFailure (e : error) : bool :=
  match e with
  | Errorf _ [ArgW _] | Errorf _ [ArgD _] => true
  | _ => false
  end.

Definition joinNotObserved : error :=
  Errorf "Unable to find node after joining cluster, node will not be annotated/labeled appropriately access registry secrets" [].

Definition installerPath : string := "/tmp/k3s-installer.sh".

(** A role other than ["server"] and ["worker"] (line 288). *)
Definition invalidRole (role : string) : bool :=
  negb (String.eqb role "server") && negb (String.eqb role "worker").

(** The first line of a command's output. *)
Definition firstLine (out : string) : string := hd "" (Split out "010").

(** ** The claims that fail, in the words of the specification *)

(** Join passes the first IPv4 address of the configured interface as the
    server to connect to. *)
Definition joinSelectsFirstIPv4 (w : World) (cfg : gmap (string * string) string) : Prop :=
  forall ifaces role remoteHost allow taint i,
    net_Interfaces w = Ok ifaces ->
    In (EvSsh i)
       (trace (snd (CommandClusterAdd w role remoteHost allow taint (initState cfg)))) ->
    Ssh_Command i = installerPath ->
    flagValue "--server" (Ssh_Args i)
    = Some ("https://" +:+ firstIPv4 (networkInterfaceOf w cfg) ifaces +:+ ":6443").

Definition invalidCombination : error :=
  Errorf "Taint scheduling can only be used on the server role" [].

(** Every join of a worker with taint scheduling is rejected with the
    invalid-combination error. *)
Definition taintedWorkerIsInvalidCombination (w : World)
    (cfg : gmap (string * string) string) : Prop :=
  forall remoteHost allow,
    fst (CommandClusterAdd w "worker" remoteHost allow true (initState cfg))
    = Err invalidCombination.

(** The name of a joined node is built from the parsed host name with only
    its dots replaced. *)
Definition joinNameFromHostname (w : World) (cfg : gmap (string * string) string) : Prop :=
  forall role remoteHost allow taint i n hostname,
    In (EvSsh i)
       (trace (snd (CommandClusterAdd w role remoteHost allow taint (initState cfg)))) ->
    Ssh_Command i = installerPath ->
    flagValue "--node-name" (Ssh_Args i) = Some n ->
    url_Parse_Hostname w remoteHost = Ok hostname ->
    specNodeName hostname n.

(** The name of a joined node is a valid DNS label. *)
Definition joinNameIsLabel (w : World) (cfg : gmap (string * string) string) : Prop :=
  forall role remoteHost allow taint i n,
    In (EvSsh i)
       (trace (snd (CommandClusterAdd w role remoteHost allow taint (initState cfg)))) ->
    Ssh_Command i = installerPath ->
    flagValue "--node-name" (Ssh_Args i) = Some n ->
    validDNSLabel n = true.

(** ** Concrete worlds, for running the commands *)

Module Demo.

Definition okResponse : ExecCommandResponse := {| Stdout := ""; ExitCode := 0 |}.

Definition versionOutput : string :=
  "k3s version v1.28.5+k3s1 (5b2d1271)" +:+ String "010" "go version go1.20.12".

Definition localExec (stdout : string) (i : ExecCommandInput)
    : result ExecCommandResponse :=
  if String.eqb (Exec_Command i) "k3s"
  then Ok {| Stdout := stdout; ExitCode := 0 |}
  else Ok okResponse.

(** The random source: call [k] yields the bytes [16k+1, 16k+2, ...]. *)
Definition counting (k i : nat) : byte :=
  match Byte.of_N (N.of_nat (16 * k + i + 1)) with Some x => x | None => x00 end.

Definition eth0 (addrs : list Addr) : Interface :=
  {| iface_Name := "eth0"; iface_Addrs := Ok addrs |}.

Definition lo : Interface :=
  {| iface_Name := "lo"; iface_Addrs := Ok [IPNet (IPv4 x7f x00 x00 x01)] |}.

(** The case tables, as far as the runs go: the capital letters of Latin-1
    (U+00C0 to U+00DE, the multiplication sign apart) lie 32 below their
    small letters. *)
Definition latin1 (r : Z) : Z :=
  if ((192 <=? r) && (r <=? 222) && negb (r =? 215))%Z then (r + 32)%Z else r.

Definition joined (name : string) : Node :=
  {| node_Name := name; node_Ready := true; node_Roles := [];
     node_Version := "v1.28.5+k3s1"; node_RemoteHost := "" |}.

Definition world (installed : bool) (addrs : list Addr) (stdout hostname : string)
    (remote : SshCommandInput -> result ExecCommandResponse)
    (wait : string -> result (list Node))
    (get : string -> result Node) : World :=
  {| isK3sInstalled := if installed then None else Some (External "k3s binary is not available");
     DefaultNetworkInterface := "eth0";
     net_Interfaces := Ok [lo; eth0 addrs];
     CallExecCommand := localExec stdout;
     CallSshCommand := remote;
     rand_Read := fun k => Ok (counting k);
     resty_Get := fun _ => Ok (Some {| StatusCode := 200; Body := "#!/bin/sh" |});
     os_CreateTemp := fun _ => Ok "/tmp/sample123";
     file_Close := fun _ => None;
     WriteSliceToFile := fun _ _ _ => None;
     os_Stat := fun _ => Ok 9%Z;
     TouchFile := fun _ => None;
     NewKubernetesClient := None;
     ApplyKubernetesManifest := fun _ => None;
     LabelNode := fun _ _ _ => None;
     AnnotateNode := fun _ _ _ => None;
     templates_ReadFile := fun _ => Ok "traefik";
     os_WriteFile := fun _ _ _ => None;
     installHelmCharts := None;
     url_Parse_Hostname := fun _ => Ok hostname;
     waitForNodeToExist := fun name _ => wait name;
     copyRegistryToNode := fun _ => None;
     GetNode := get;
     DeleteNode := fun _ => None;
     PropertyWrite := fun _ _ _ _ => None;
     unicode_To_LowerCase := latin1 |}.

Definition sshOk (_ : SshCommandInput) : result ExecCommandResponse := Ok okResponse.

Definition sshExit (code : Z) (_ : SshCommandInput) : result ExecCommandResponse :=
  Ok {| Stdout := ""; ExitCode := code |}.

Definition found (name : string) : result (list Node) := Ok [joined name].

Definition notFound (_ : string) : result (list Node) := Ok [].

Definition remoteNode (host name : string) : result Node :=
  Ok {| node_Name := name; node_Ready := true; node_Roles := [];
        node_Version := "v1.28.5+k3s1"; node_RemoteHost := host |}.

Definition noConfig : gmap (string * string) string := ∅.

Definition withToken (t : string) : gmap (string * string) string :=
  <[ ("--global", "token") := t ]> ∅.

Definition ip5 : Addr := IPNet (IPv4 x0a x00 x00 x05).
Definition ip6 : Addr := IPNet (IPv4 x0a x00 x00 x06).

(** A host on which nothing is installed yet. *)
Definition bootstrapHost (addrs : list Addr) : World :=
  world false addrs versionOutput "" sshOk found (remoteNode "").
Definition controlNode (addrs : list Addr) (hostname : string) : World :=
  world true addrs versionOutput hostname sshOk found (remoteNode "root@worker1").
Definition unobserved : World :=
  world true [ip5] versionOutput "worker1" sshOk notFound (remoteNode "").
Definition oddVersion : World :=
  world true [ip5] "k3s v1.28.5+k3s1" "worker1" sshOk found (remoteNode "").
Definition uninstallFails : World :=
  world true [ip5] versionOutput "" (sshExit 1) found (remoteNode "root@worker1").
Definition localNode : World :=
  world true [ip5] versionOutput "" sshOk found (remoteNode "").
Definition worker1 : string := "ssh://root@worker1".
Definition installerCall (args : list string) : SshCommandInput :=
  sshInput installerPath args false worker1 true.
Definition installerRun (f : string) (args : list string) : ExecCommandInput :=
  {| Exec_Command := f; Exec_Args := args;
     Exec_StreamStdio := true; Exec_CaptureOutput := false |}.

End Demo.

(** ** The other commands of the file *)

Definition uninstallerInput : ExecCommandInput :=
  {| Exec_Command := "/usr/local/bin/k3s-uninstall.sh"; Exec_Args := [];
     Exec_StreamStdio := true; Exec_CaptureOutput := false |}.

(** *** [CommandUninstall] (lines 739-757) *)
Definition CommandUninstall (w : World) : M unit :=
  failIf (match isK3sInstalled w with None => false | Some _ => true end)
    (Errorf "k3s not installed, cannot uninstall" []) ;;;
  log "LogInfo1" "Uninstalling k3s" ;;;
  uninstallerCmd <- wrap "Unable to call k3s uninstaller command: %w"
    (exec w uninstallerInput) ;;
  failIf (negb (ExitCode uninstallerCmd =? 0)%Z)
    (Errorf "Invalid exit code from k3s uninstaller command: %d"
       [ArgD (ExitCode uninstallerCmd)]) ;;;
  ret tt.

Section Listing.

Variable w : World.

(** What the cluster API client and the formatters answer; they are not part
    of the file embedded here and are taken as they come.  [KNode] is the
    node type of the API, [kubernetesNodeToNode] its conversion,
    [Node_String] the row of a node. *)
Variable KNode : Type.
Variable ListNodes : result (list KNode).
Variable kubernetesNodeToNode : KNode -> Node.
Variable Node_String : Node -> string.
Variable SimpleFormat : list string -> string.
Variable json_Marshal : list Node -> result string.

(** *** [CommandClusterList] (lines 579-631); [fmt.Println] is kept in the
    trace as an output call of that name. *)
Definition CommandClusterList (format : string) : M unit :=
  failIf (negb (String.eqb format "stdout") && negb (String.eqb format "json"))
    (Errorf "Invalid format: %s" [ArgS format]) ;;;
  failIf (match isK3sInstalled w with None => false | Some _ => true end)
    (Errorf "k3s not installed, cannot list cluster nodes" []) ;;;
  wrap "Unable to create kubernetes client: %w"
    (callE EvNewKubernetesClient (NewKubernetesClient w)) ;;;
  nodes <- wrap "Unable to list nodes: %w" (liftR ListNodes) ;;
  let output := map kubernetesNodeToNode nodes in
  if String.eqb format "stdout" then
    let lines := ["name|ready|roles|version"] ++ map Node_String output in
    let columnized := SimpleFormat lines in
    log "fmt.Println" columnized ;;;
    ret tt
  else
    b <- wrap "Unable to marshal json: %w" (liftR (json_Marshal output)) ;;
    log "fmt.Println" b ;;;
    ret tt.

End Listing.

Section Report.

(** [common.DokkuApps] and [ReportSingleApp] are not part of the file
    embedded here and are taken as they answer. *)
Variable DokkuApps : result (list string).
Variable ReportSingleApp : string -> string -> string -> option error.

(** The loop of lines 706-710, with the apps handed to [ReportSingleApp] so
    far as explicit state. *)
Fixpoint reportApps (apps : list string) (format infoFlag : string)
    (reported : list string) : option error * list string :=
  match apps with
  | [] => (None, reported)
  | appName :: r =>
      match ReportSingleApp appName format infoFlag with
      | Some err => (Some err, reported ++ [appName])
      | None => reportApps r format infoFlag (reported ++ [appName])
      end
  end.

(** *** [CommandReport] (lines 700-715): the error returned, and the apps
    handed to [ReportSingleApp], in order. *)
Definition CommandReport (appName format infoFlag : string)
    : option error * list string :=
  if (String.length appName =? 0)%nat then
    match DokkuApps with
    | Err err => (Some err, [])
    | Ok apps => reportApps apps format infoFlag []
    end
  else (ReportSingleApp appName format infoFlag, [appName]).

End Report.

(** The preparatory commands of a join, run over ssh before the installer
    (lines 368-443). *)
Definition joinPreparation (allowUknownHosts : bool) (remoteHost : string)
    : list SshCommandInput :=
  [ sshInput "apt-get" ["update"] allowUknownHosts remoteHost true;
    sshInput "apt-get" aptPackages allowUknownHosts remoteHost true;
    sshInput "curl" ["-o /tmp/k3s-installer.sh"; "https://get.k3s.io"]
      allowUknownHosts remoteHost false;
    sshInput "chmod" ["0755"; "/tmp/k3s-installer.sh"] allowUknownHosts remoteHost false ].

(** The number of occurrences of a character. *)
Fixpoint countChar (c : ascii) (s : string) : nat :=
  match s with
  | EmptyString => 0
  | String x r => (if Ascii.eqb x c then 1 else 0) + countChar c r
  end.

Definition taintFlag : list string :=
  ["--node-taint"; "CriticalAddonsOnly=true:NoSchedule"].

Definition labelsOf (role : string) : list (string * string) :=
  if String.eqb role "worker" then WorkerLabels else ServerLabels.

(** ** More concrete runs *)

Module Runs.

(** A control node whose network stack answers [ifaces]. *)
Definition withInterfaces (ifaces : result (list Interface)) (installed : bool) : World :=
  let w := Demo.world installed [] Demo.versionOutput "worker1" Demo.sshOk Demo.found
             (Demo.remoteNode "root@worker1") in
  {| isK3sInstalled := isK3sInstalled w;
     DefaultNetworkInterface := DefaultNetworkInterface w;
     net_Interfaces := ifaces;
     CallExecCommand := CallExecCommand w;
     CallSshCommand := CallSshCommand w;
     rand_Read := rand_Read w;
     resty_Get := resty_Get w;
     os_CreateTemp := os_CreateTemp w;
     file_Close := file_Close w;
     WriteSliceToFile := WriteSliceToFile w;
     os_Stat := os_Stat w;
     TouchFile := TouchFile w;
     NewKubernetesClient := NewKubernetesClient w;
     ApplyKubernetesManifest := ApplyKubernetesManifest w;
     LabelNode := LabelNode w;
     AnnotateNode := AnnotateNode w;
     templates_ReadFile := templates_ReadFile w;
     os_WriteFile := os_WriteFile w;
     installHelmCharts := installHelmCharts w;
     url_Parse_Hostname := url_Parse_Hostname w;
     waitForNodeToExist := waitForNodeToExist w;
     copyRegistryToNode := copyRegistryToNode w;
     GetNode := GetNode w;
     DeleteNode := DeleteNode w;
     PropertyWrite := PropertyWrite w;
     unicode_To_LowerCase := unicode_To_LowerCase w |}.

Definition brokenEth0 : Interface :=
  {| iface_Name := "eth0"; iface_Addrs := Err (External "route ip+net: netlinkrib") |}.

Definition control : World := Demo.controlNode [Demo.ip5] "worker1".

Definition fresh : World := Demo.bootstrapHost [Demo.ip5].

Definition token : gmap (string * string) string := Demo.withToken "abc123".

Definition join (role : string) (taint : bool) : result unit * State :=
  CommandClusterAdd control role Demo.worker1 false taint (initState token).

Definition joinInstaller (role : string) (taint : bool) : SshCommandInput :=
  Demo.installerCall
    (clusterAddArgs role "ip-worker1-0102030405" "10.0.0.5" "abc123" taint).

Definition bootstrap (cfg : gmap (string * string) string) : result unit * State :=
  CommandInitialize fresh false (initState cfg).

Definition bootstrapInstaller (token : string) : ExecCommandInput :=
  Demo.installerRun "/tmp/sample123"
    (initializeArgs (if String.eqb token "" then "ip-10-0-0-5-1112131415"
                     else "ip-10-0-0-5-0102030405") token false).

Definition apps : result (list string) := Ok ["blog"; "shop"; "wiki"].

Definition reportShopFails (appName format infoFlag : string) : option error :=
  if String.eqb appName "shop" then Some (External "not deployed") else None.

Definition listed : result (list string) := Ok ["n1"; "n2"].

Definition row (n : Node) : string := node_Name n +:+ "|true||" +:+ node_Version n.

Definition noJson (_ : list Node) : result string := Err (External "unsupported value").

End Runs.

(** ** Running a command symbolically *)

(** Unfolding of the monad's combinators, and of nothing else: the calls to
    the collaborators stay in place as the scrutinees of matches. *)
Ltac red_m :=
  cbv beta iota zeta delta
    [bind ret fail failIf wrap orFail callE call emit log exec ssh liftR defer discard
     randRead getGlobalGlobalToken getGlobalNetworkInterface CommandSet
     CommandPropertySet initState forEach labelNodes store nrand trace fst snd app
     KubernetesManifests ServerLabels WorkerLabels].

(** One step of a run: case analysis on the answer of the collaborator (or
    on the test) the run is waiting for. *)
Ltac innermost x :=
  lazymatch x with
  | context [match ?y with _ => _ end] => innermost y
  | _ => destruct x eqn:?
  end.

Ltac step :=
  match goal with
  | |- context [match ?x with _ => _ end] => innermost x; red_m
  end.

(** [H : In e tr] for a trace [tr] spelled out: one case per event of [tr]
    that [e] can be. *)
Ltac in_cases H :=
  cbn [In] in H;
  repeat match type of H with
         | _ \/ _ => destruct H as [H|H]
         | False => destruct H
         | _ = _ => first [discriminate H | idtac]
         end.

(** Membership of a concrete event in the trace of a concrete run. *)
Ltac solve_In := vm_compute; repeat first [left; reflexivity | right].

(** ** UTF-8 at the borders of ASCII *)

Lemma append_cons (c : ascii) (a b : string) : String c a +:+ b = String c (a +:+ b).
Proof. reflexivity. Qed.

Lemma append_nil (b : string) : "" +:+ b = b.
Proof. reflexivity. Qed.

Lemma append_assoc (a b c : string) : (a +:+ b) +:+ c = a +:+ (b +:+ c).
Proof.
  induction a as [|x a IH]; [reflexivity|]. rewrite !append_cons. now rewrite IH.
Qed.

Lemma append_length (a b : string) :
  String.length (a +:+ b) = (String.length a + String.length b)%nat.
Proof.
  induction a as [|x a IH]; [reflexivity|].
  rewrite append_cons. cbn [String.length]. now rewrite IH.
Qed.

Lemma byteOf_range (c : ascii) : (0 <= byteOf c < 256)%Z.
Proof.
  unfold byteOf. pose proof (N_ascii_bounded c). lia.
Qed.

Lemma first_nonascii (b : Z) :
  (128 <= b)%Z ->
  utf8.first b = utf8.xx \/
  exists sz lo hi,
    Z.to_nat (Z.land (utf8.first b) 7) = sz /\
    utf8.acceptRanges (Z.shiftr (utf8.first b) 4) = (lo, hi) /\
    (utf8.first b >=? utf8.as_)%Z = false /\
    (2 <= sz <= 4)%nat /\ (128 <= lo)%Z.
Proof.
  intros Hb. unfold utf8.first.
  repeat match goal with
         | |- context [(b <? ?k)%Z] => destruct (Z.ltb_spec b k); [try lia|]
         | |- context [(b =? ?k)%Z] => destruct (Z.eqb_spec b k)
         end.
  all: first [left; reflexivity | right].
  all: match goal with
       | |- context [Z.land ?x 7] =>
           exists (Z.to_nat (Z.land x 7)), (fst (utf8.acceptRanges (Z.shiftr x 4))),
                  (snd (utf8.acceptRanges (Z.shiftr x 4)))
       end.
  all: vm_compute; repeat split; try lia; discriminate.
Qed.

(** An ASCII byte is a rune of its own. *)
Lemma DecodeRune_ascii (c : ascii) (r : string) :
  (byteOf c < 128)%Z -> utf8.DecodeRuneInString (String c r) = (byteOf c, 1%nat).
Proof.
  intros Hc. unfold utf8.DecodeRuneInString.
  cbn [String.length Nat.ltb Nat.leb byteAt String.get].
  unfold utf8.first. destruct (Z.ltb_spec (byteOf c) 128); [|lia].
  change (utf8.as_ >=? utf8.as_)%Z with true. cbv iota.
  change (Z.shiftr (int32 (Z.shiftl utf8.as_ 31)) 31) with 0%Z.
  change (Z.lnot 0) with (-1)%Z.
  now rewrite Z.land_m1_r, Z.land_0_r, Z.lor_0_r.
Qed.

(** Any other byte starts a sequence of two to four bytes, or is one
    invalid byte. *)
Lemma DecodeRune_nonascii (c : ascii) (r : string) :
  (128 <= byteOf c)%Z ->
  utf8.DecodeRuneInString (String c r) = (utf8.RuneError, 1%nat) \/
  exists sz lo hi,
    (2 <= sz <= 4)%nat /\ (128 <= lo)%Z /\
    utf8.DecodeRuneInString (String c r) = utf8.decodeSequence sz (lo, hi) (String c r).
Proof.
  intros Hc. unfold utf8.DecodeRuneInString.
  cbn [String.length Nat.ltb Nat.leb byteAt String.get].
  destruct (first_nonascii _ Hc) as [-> | (sz & lo & hi & -> & -> & -> & Hsz & Hlo)].
  - left. change (utf8.xx >=? utf8.as_)%Z with true. cbv iota.
    change (Z.shiftr (int32 (Z.shiftl utf8.xx 31)) 31) with (-1)%Z.
    change (Z.lnot (-1)) with 0%Z.
    now rewrite Z.land_0_r, Z.land_m1_r.
  - right. exists sz, lo, hi. auto.
Qed.

Ltac by_bounds :=
  repeat match goal with
         | |- context [(?a <? ?b)%Z] =>
             destruct (Z.ltb_spec a b); try lia; cbn [orb]; cbv iota
         end;
  repeat match goal with
         | |- context [if ?b then _ else _] => destruct b
         end;
  first [reflexivity | lia].

Lemma decodeSequence_width (sz : nat) (accept : Z * Z) (s : string) :
  (2 <= sz <= 4)%nat -> (1 <= String.length s)%nat ->
  (1 <= snd (utf8.decodeSequence sz accept s) <= String.length s)%nat.
Proof.
  intros Hsz Hs. unfold utf8.decodeSequence.
  destruct (Nat.ltb_spec (String.length s) sz); [cbn [snd]; lia|].
  repeat match goal with
         | |- context [(?a <=? ?b)%nat] => destruct (Nat.leb_spec a b)
         | |- context [if ?b then _ else _] => destruct b
         end; cbn [snd]; lia.
Qed.

Lemma DecodeRune_width (s : string) :
  s <> "" ->
  (1 <= snd (utf8.DecodeRuneInString s) <= String.length s)%nat.
Proof.
  destruct s as [|c r]; [easy | intros _].
  destruct (Z.ltb_spec (byteOf c) 128) as [Hc|Hc].
  - rewrite DecodeRune_ascii by exact Hc. cbn [snd String.length]. lia.
  - destruct (DecodeRune_nonascii c r Hc) as [-> | (sz & lo & hi & Hsz & _ & ->)].
    + cbn [snd String.length]. lia.
    + apply decodeSequence_width; [exact Hsz | cbn [String.length]; lia].
Qed.

(** What follows a string does not change its first rune, when it starts
    with an ASCII byte: that byte continues no sequence. *)
Lemma decodeSequence_app (sz : nat) (lo hi : Z) (s t : string) (c : ascii) :
  (2 <= sz <= 4)%nat -> (128 <= lo)%Z -> (byteOf c < 128)%Z -> s <> "" ->
  utf8.decodeSequence sz (lo, hi) (s +:+ String c t) = utf8.decodeSequence sz (lo, hi) s.
Proof.
  intros Hsz Hlo Hc Hs.
  assert (sz = 2 \/ sz = 3 \/ sz = 4)%nat as [-> | [-> | ->]] by lia.
  all: destruct s as [|c0 [|c1 [|c2 [|c3 s]]]]; [easy|..].
  all: unfold utf8.decodeSequence, utf8.locb, utf8.hicb.
  all: rewrite ?append_cons, ?append_nil.
  all: cbn [String.length Nat.ltb Nat.leb byteAt String.get fst snd].
  all: by_bounds.
Qed.

Lemma DecodeRune_app (s t : string) (c : ascii) :
  (byteOf c < 128)%Z -> s <> "" ->
  utf8.DecodeRuneInString (s +:+ String c t) = utf8.DecodeRuneInString s.
Proof.
  intros Hc Hs. destruct s as [|c0 r]; [easy|]. rewrite append_cons.
  destruct (Z.ltb_spec (byteOf c0) 128) as [H0|H0].
  - now rewrite !DecodeRune_ascii.
  - unfold utf8.DecodeRuneInString.
    cbn [String.length Nat.ltb Nat.leb byteAt String.get].
    destruct (first_nonascii _ H0) as [-> | (sz & lo & hi & -> & -> & -> & Hsz & Hlo)];
      [reflexivity|].
    now apply (decodeSequence_app sz lo hi (String c0 r)).
Qed.

Lemma decodeSequence_replace (sz : nat) (lo hi : Z) (c0 : ascii) (r : string) :
  (2 <= sz <= 4)%nat -> (128 <= lo)%Z -> (128 <= byteOf c0)%Z ->
  utf8.decodeSequence sz (lo, hi) (ReplaceAll (String c0 r) "." "-")
  = utf8.decodeSequence sz (lo, hi) (String c0 r).
Proof.
  intros Hsz Hlo H0.
  assert (E0 : Ascii.eqb c0 "." = false)
    by (apply Ascii.eqb_neq; intros ->; change (byteOf ".") with 46%Z in H0; lia).
  assert (sz = 2 \/ sz = 3 \/ sz = 4)%nat as [-> | [-> | ->]] by lia.
  all: destruct r as [|c1 [|c2 [|c3 r]]].
  all: unfold utf8.decodeSequence, utf8.locb, utf8.hicb.
  all: cbn [ReplaceAll String.length Nat.ltb Nat.leb byteAt String.get fst snd].
  all: rewrite ?E0.
  all: try reflexivity.
  all: repeat match goal with
         | |- context [Ascii.eqb ?c "."] =>
             destruct (Ascii.eqb_spec c "."); [subst c|]
         end.
  all: change (byteOf ".") with 46%Z; change (byteOf "-") with 45%Z.
  all: by_bounds.
Qed.

(** Turning dots into dashes leaves the first rune as it is, unless it is
    the dot itself. *)
Lemma DecodeRune_replace (c0 : ascii) (r : string) :
  (128 <= byteOf c0)%Z ->
  utf8.DecodeRuneInString (ReplaceAll (String c0 r) "." "-")
  = utf8.DecodeRuneInString (String c0 r).
Proof.
  intros H0.
  assert (E0 : Ascii.eqb c0 "." = false)
    by (apply Ascii.eqb_neq; intros ->; change (byteOf ".") with 46%Z in H0; lia).
  pose proof (decodeSequence_replace) as Hd.
  cbn [ReplaceAll] in *. rewrite E0 in *.
  unfold utf8.DecodeRuneInString.
  cbn [String.length Nat.ltb Nat.leb byteAt String.get].
  destruct (first_nonascii _ H0) as [-> | (sz & lo & hi & -> & -> & -> & Hsz & Hlo)];
    [reflexivity|].
  specialize (Hd sz lo hi c0 r Hsz Hlo H0). now rewrite E0 in Hd.
Qed.

(** ** [strings.Map] and [strings.ToLower] *)

Lemma mapRunes_ascii (mapping : Z -> Z) (c : ascii) (r : string) :
  (byteOf c < 128)%Z ->
  mapRunes mapping 0 (String c r)
  = (if (mapping (byteOf c) >=? 0)%Z then utf8.AppendRune (mapping (byteOf c)) else "")
      +:+ mapRunes mapping 0 r.
Proof.
  intros Hc. cbn [mapRunes]. now rewrite DecodeRune_ascii.
Qed.

(** The runes of a string are mapped on their own when an ASCII byte
    follows it. *)
Lemma mapRunes_app (mapping : Z -> Z) (s t : string) (c : ascii) (k : nat) :
  (byteOf c < 128)%Z -> (k <= String.length s)%nat ->
  mapRunes mapping k (s +:+ String c t)
  = mapRunes mapping k s +:+ mapRunes mapping 0 (String c t).
Proof.
  intros Hc. revert k. induction s as [|a s IH]; intros k Hk.
  - cbn [String.length] in Hk. assert (k = 0)%nat as -> by lia. reflexivity.
  - rewrite append_cons. destruct k as [|k].
    + cbn [mapRunes]. rewrite <- append_cons.
      rewrite (DecodeRune_app (String a s) t c Hc) by discriminate.
      pose proof (DecodeRune_width (String a s) ltac:(discriminate)) as Hw.
      destruct (utf8.DecodeRuneInString (String a s)) as [rn width].
      cbn [snd String.length] in Hw.
      rewrite IH by lia. now rewrite append_assoc.
    + cbn [mapRunes]. apply IH. cbn [String.length] in Hk. lia.
Qed.

(** On an ASCII byte, [unicode.ToLower] followed by the encoding is the
    lower-casing of the byte. *)
Lemma ToLower_ascii_rune (To_LowerCase : Z -> Z) (c : ascii) :
  (byteOf c < 128)%Z ->
  (unicode.ToLower To_LowerCase (byteOf c) >=? 0)%Z = true /\
  utf8.AppendRune (unicode.ToLower To_LowerCase (byteOf c)) = String (toLowerChar c) "".
Proof.
  destruct c as [[] [] [] [] [] [] [] []]; intros Hc;
    first [discriminate Hc | vm_compute; split; reflexivity].
Qed.

Lemma Map_ToLower_ascii (To_LowerCase : Z -> Z) (c : ascii) (r : string) :
  (byteOf c < 128)%Z ->
  Map (unicode.ToLower To_LowerCase) (String c r)
  = String (toLowerChar c) (Map (unicode.ToLower To_LowerCase) r).
Proof.
  intros Hc. unfold Map. rewrite mapRunes_ascii by exact Hc.
  destruct (ToLower_ascii_rune To_LowerCase c Hc) as [-> ->]. reflexivity.
Qed.

Lemma Map_lowerBytes (To_LowerCase : Z -> Z) (s : string) :
  isASCII s = true -> Map (unicode.ToLower To_LowerCase) s = lowerBytes s.
Proof.
  induction s as [|c s IH]; [reflexivity|].
  cbn [isASCII lowerBytes]. intros [Hc Hs]%andb_prop.
  apply Z.ltb_lt in Hc. rewrite Map_ToLower_ascii by exact Hc. now rewrite IH.
Qed.

Lemma lowerBytes_hasUpper (s : string) : hasUpper s = false -> lowerBytes s = s.
Proof.
  induction s as [|c s IH]; [reflexivity|].
  cbn [hasUpper lowerBytes]. intros [Hc Hs]%orb_false_elim.
  rewrite (IH Hs). unfold toLowerChar. now rewrite Hc.
Qed.

(** On an ASCII string, [strings.ToLower] is the byte loop. *)
Lemma ToLower_ascii (To_LowerCase : Z -> Z) (s : string) :
  isASCII s = true -> ToLower To_LowerCase s = lowerBytes s.
Proof.
  intros Hs. unfold ToLower. rewrite Hs.
  destruct (hasUpper s) eqn:E; [reflexivity | now rewrite lowerBytes_hasUpper].
Qed.

(** The ASCII path of [strings.ToLower] is a short cut: the result is in
    every case that of mapping the runes. *)
Lemma ToLower_Map (To_LowerCase : Z -> Z) (s : string) :
  ToLower To_LowerCase s = Map (unicode.ToLower To_LowerCase) s.
Proof.
  destruct (isASCII s) eqn:E.
  - now rewrite ToLower_ascii, Map_lowerBytes.
  - unfold ToLower. now rewrite E.
Qed.

Lemma ToLower_cons (To_LowerCase : Z -> Z) (c : ascii) (r : string) :
  (byteOf c < 128)%Z ->
  ToLower To_LowerCase (String c r) = String (toLowerChar c) (ToLower To_LowerCase r).
Proof. intros Hc. rewrite !ToLower_Map. now apply Map_ToLower_ascii. Qed.

Lemma ToLower_app (To_LowerCase : Z -> Z) (s t : string) (c : ascii) :
  (byteOf c < 128)%Z ->
  ToLower To_LowerCase (s +:+ String c t)
  = ToLower To_LowerCase s +:+ ToLower To_LowerCase (String c t).
Proof.
  intros Hc. rewrite !ToLower_Map. unfold Map. apply mapRunes_app; [exact Hc | lia].
Qed.

Lemma ReplaceAll_app (a b : string) (old new : ascii) :
  ReplaceAll (a +:+ b) old new = ReplaceAll a old new +:+ ReplaceAll b old new.
Proof. induction a as [|c a IH]; simpl; [reflexivity | now rewrite IH]. Qed.

Lemma ReplaceAll_length (s : string) (old new : ascii) :
  String.length (ReplaceAll s old new) = String.length s.
Proof. induction s as [|c s IH]; [reflexivity | cbn [ReplaceAll String.length]; now rewrite IH]. Qed.

(** Lower-casing does not tell a dot from a dash, once the dots of the
    result are dashes. *)
Lemma mapRunes_replace (To_LowerCase : Z -> Z) (s : string) (k : nat) :
  ReplaceAll (mapRunes (unicode.ToLower To_LowerCase) k (ReplaceAll s "." "-")) "." "-"
  = ReplaceAll (mapRunes (unicode.ToLower To_LowerCase) k s) "." "-".
Proof.
  revert k. induction s as [|c s IH]; intros k; [reflexivity|].
  destruct k as [|k]; [|cbn [ReplaceAll mapRunes]; apply IH].
  destruct (Z.ltb_spec (byteOf c) 128) as [Hc|Hc].
  - cbn [ReplaceAll].
    assert (Hc' : (byteOf (if Ascii.eqb c "." then "-"%char else c) < 128)%Z)
      by (destruct (Ascii.eqb c "."); [change (byteOf "-") with 45%Z; lia | exact Hc]).
    rewrite !mapRunes_ascii by assumption.
    destruct (ToLower_ascii_rune To_LowerCase _ Hc') as [-> ->].
    destruct (ToLower_ascii_rune To_LowerCase _ Hc) as [-> ->].
    rewrite !append_cons, !append_nil. cbn [ReplaceAll]. rewrite IH. f_equal.
    destruct (Ascii.eqb_spec c ".") as [->|Hne]; reflexivity.
  - change (mapRunes ?f 0 (ReplaceAll (String c s) "." "-"))
      with (let '(c', width) := utf8.DecodeRuneInString (ReplaceAll (String c s) "." "-") in
            (if (f c' >=? 0)%Z then utf8.AppendRune (f c') else "")
              +:+ mapRunes f (width - 1) (ReplaceAll s "." "-")).
    rewrite DecodeRune_replace by exact Hc. cbn [mapRunes].
    destruct (utf8.DecodeRuneInString (String c s)) as [rn width].
    now rewrite !ReplaceAll_app, IH.
Qed.

Lemma lowerBytes_app (a b : string) : lowerBytes (a +:+ b) = lowerBytes a +:+ lowerBytes b.
Proof.
  induction a as [|c a IH]; [reflexivity|].
  rewrite append_cons. cbn [lowerBytes]. now rewrite IH.
Qed.

Lemma lowerBytes_length (s : string) : String.length (lowerBytes s) = String.length s.
Proof.
  induction s as [|c s IH]; [reflexivity | cbn [lowerBytes String.length]; now rewrite IH].
Qed.

Lemma allChars_app (p : ascii -> bool) (a b : string) :
  allChars p (a +:+ b) = allChars p a && allChars p b.
Proof.
  induction a as [|c a IH]; simpl; [reflexivity|].
  now rewrite IH, andb_assoc.
Qed.

Lemma allChars_impl (p q : ascii -> bool) (s : string) :
  (forall c, p c = true -> q c = true) -> allChars p s = true -> allChars q s = true.
Proof.
  intros Hpq. induction s as [|c s IH]; simpl; [easy|].
  intros [Hc Hs]%andb_prop. now rewrite (Hpq c Hc), (IH Hs).
Qed.

Lemma toLowerChar_notUpper (c : ascii) : notUpper (toLowerChar c) = true.
Proof. destruct c as [[] [] [] [] [] [] [] []]; reflexivity. Qed.

Lemma lowerCase_lowerBytes (s : string) : lowerCase (lowerBytes s) = true.
Proof.
  induction s as [|c s IH]; [reflexivity|].
  unfold lowerCase in *; simpl. now rewrite toLowerChar_notUpper, IH.
Qed.

Lemma lowerCase_ReplaceAll_dash (s : string) :
  lowerCase s = true -> lowerCase (ReplaceAll s "." "-") = true.
Proof.
  unfold lowerCase. induction s as [|c s IH]; simpl; [easy|].
  intros [Hc Hs]%andb_prop. rewrite (IH Hs), andb_true_r.
  destruct (Ascii.eqb c "."); [reflexivity | exact Hc].
Qed.

Lemma dotFree_ReplaceAll_dash (s : string) : dotFree (ReplaceAll s "." "-") = true.
Proof.
  unfold dotFree. induction s as [|c s IH]; simpl; [reflexivity|].
  rewrite IH, andb_true_r. unfold notDot.
  destruct (Ascii.eqb c ".") eqn:E; [reflexivity | now rewrite E].
Qed.

(** A string without dots is left alone by the replacement. *)
Lemma ReplaceAll_dotFree (s : string) :
  dotFree s = true -> ReplaceAll s "." "-" = s.
Proof.
  unfold dotFree. induction s as [|c s IH]; simpl; [easy|].
  intros [Hc Hs]%andb_prop. rewrite (IH Hs).
  unfold notDot in Hc. now destruct (Ascii.eqb c ".").
Qed.

Lemma lowerBytes_lowerCase (s : string) : lowerCase s = true -> lowerBytes s = s.
Proof.
  unfold lowerCase. induction s as [|c s IH]; simpl; [easy|].
  intros [Hc Hs]%andb_prop. rewrite (IH Hs).
  unfold toLowerChar, notUpper in *. now destruct (isUpper c).
Qed.

(** The suffix: hexadecimal digits are ASCII, and lower-case once through
    [strings.ToLower]. *)
Lemma hex_byte (x : byte) :
  let n := Byte.to_N x in
  isLowerHex (toLowerChar (hexDigitUpper (n / 16))) = true /\
  isLowerHex (toLowerChar (hexDigitUpper (n mod 16))) = true.
Proof. destruct x; vm_compute; split; reflexivity. Qed.

Lemma hex_byte_ascii (x : byte) :
  let n := Byte.to_N x in
  (byteOf (hexDigitUpper (n / 16)) <? 128)%Z = true /\
  (byteOf (hexDigitUpper (n mod 16)) <? 128)%Z = true.
Proof. destruct x; vm_compute; split; reflexivity. Qed.

Lemma SprintfX_ascii (b : list byte) : isASCII (SprintfX b) = true.
Proof.
  induction b as [|x b IH]; [reflexivity|].
  destruct (hex_byte_ascii x) as [H1 H2]. cbn [SprintfX isASCII].
  change utf8.RuneSelf with 128%Z. now rewrite H1, H2, IH.
Qed.

Lemma ToLower_hex (To_LowerCase : Z -> Z) (b : list byte) :
  ToLower To_LowerCase (SprintfX b) = lowerBytes (SprintfX b).
Proof. apply ToLower_ascii, SprintfX_ascii. Qed.

Lemma lowerBytes_lowerHex (b : list byte) :
  allChars isLowerHex (lowerBytes (SprintfX b)) = true.
Proof.
  induction b as [|x b IH]; [reflexivity|].
  destruct (hex_byte x) as [H1 H2]. cbn [SprintfX lowerBytes allChars].
  now rewrite H1, H2, IH.
Qed.

Lemma suffix_lowerHex (To_LowerCase : Z -> Z) (b : list byte) :
  allChars isLowerHex (ToLower To_LowerCase (SprintfX b)) = true.
Proof. rewrite ToLower_hex. apply lowerBytes_lowerHex. Qed.

Lemma isLowerHex_notDot (c : ascii) : isLowerHex c = true -> notDot c = true.
Proof. destruct c as [[] [] [] [] [] [] [] []]; vm_compute; congruence. Qed.

Lemma suffix_length (To_LowerCase : Z -> Z) (src : nat -> byte) :
  String.length (ToLower To_LowerCase (SprintfX (map src (seq 0 5)))) = 10%nat.
Proof. rewrite ToLower_hex, lowerBytes_length. reflexivity. Qed.

Lemma suffix_lowerHex10 (To_LowerCase : Z -> Z) (src : nat -> byte) :
  lowerHex10 (ToLower To_LowerCase (SprintfX (map src (seq 0 5)))).
Proof. split; [apply suffix_length | apply suffix_lowerHex]. Qed.

(** The name, taken apart: the seed is lower-cased on its own, whatever its
    bytes, because the bytes around it are ASCII. *)
Lemma newNodeName_eq (To_LowerCase : Z -> Z) (seed : string) (b : list byte) :
  newNodeName To_LowerCase seed b
  = "ip-" +:+ ReplaceAll (ToLower To_LowerCase seed) "." "-" +:+ "-"
      +:+ ToLower To_LowerCase (SprintfX b).
Proof.
  unfold newNodeName. rewrite !append_cons, !append_nil.
  rewrite !ToLower_cons by (vm_compute; reflexivity).
  rewrite ToLower_app by (vm_compute; reflexivity).
  rewrite ToLower_cons by (vm_compute; reflexivity).
  change (toLowerChar "i") with "i"%char. change (toLowerChar "p") with "p"%char.
  change (toLowerChar "-") with "-"%char.
  cbn [ReplaceAll Ascii.eqb Bool.eqb]. rewrite ReplaceAll_app. cbn [ReplaceAll Ascii.eqb Bool.eqb].
  rewrite (ReplaceAll_dotFree (ToLower To_LowerCase (SprintfX b))); [reflexivity|].
  apply (allChars_impl isLowerHex); [apply isLowerHex_notDot | apply suffix_lowerHex].
Qed.

Lemma newNodeName_ascii (To_LowerCase : Z -> Z) (seed : string) (b : list byte) :
  isASCII seed = true ->
  newNodeName To_LowerCase seed b
  = "ip-" +:+ ReplaceAll (lowerBytes seed) "." "-" +:+ "-" +:+ lowerBytes (SprintfX b).
Proof. intros Hs. now rewrite newNodeName_eq, ToLower_hex, (ToLower_ascii _ seed Hs). Qed.

Lemma newNodeName_lowerCase (To_LowerCase : Z -> Z) (seed : string) (b : list byte) :
  isASCII seed = true -> lowerCase (newNodeName To_LowerCase seed b) = true.
Proof.
  intros Hs. rewrite (newNodeName_ascii _ _ _ Hs). unfold lowerCase.
  rewrite !allChars_app.
  fold (lowerCase (ReplaceAll (lowerBytes seed) "." "-")).
  rewrite lowerCase_ReplaceAll_dash by apply lowerCase_lowerBytes.
  fold (lowerCase (lowerBytes (SprintfX b))). now rewrite lowerCase_lowerBytes.
Qed.

Lemma newNodeName_dotFree (To_LowerCase : Z -> Z) (seed : string) (b : list byte) :
  dotFree (newNodeName To_LowerCase seed b) = true.
Proof. apply dotFree_ReplaceAll_dash. Qed.

Lemma octet_lowerCase (x : byte) : lowerCase (octet x) = true.
Proof. destruct x; reflexivity. Qed.

Lemma IP_String_lowerCase (ip : IP) : To4 ip = true -> lowerCase (IP_String ip) = true.
Proof.
  destruct ip as [a b c d|s]; [intros _ | discriminate].
  unfold lowerCase, IP_String. rewrite !allChars_app.
  pose proof (octet_lowerCase a). pose proof (octet_lowerCase b).
  pose proof (octet_lowerCase c). pose proof (octet_lowerCase d).
  unfold lowerCase in *. now repeat (rewrite H || rewrite H0 || rewrite H1 || rewrite H2).
Qed.

Lemma IP_String_nonempty (ip : IP) : To4 ip = true -> IP_String ip <> "".
Proof.
  destruct ip as [a b c d|s]; [intros _ | discriminate].
  unfold IP_String. destruct a; discriminate.
Qed.

(** ** DNS labels *)

Lemma octet_plain (x : byte) :
  plainHost (octet x) = true /\ (String.length (octet x) <= 3)%nat.
Proof. destruct x; split; first [reflexivity | vm_compute; lia]. Qed.

(** A printed IPv4 address: digits and dots, at most 15 of them. *)
Lemma IP_String_plain (ip : IP) :
  To4 ip = true ->
  plainHost (IP_String ip) = true /\ (String.length (IP_String ip) <= 15)%nat.
Proof.
  destruct ip as [a b c d|s]; [intros _ | discriminate].
  destruct (octet_plain a) as [Pa La], (octet_plain b) as [Pb Lb],
           (octet_plain c) as [Pc Lc], (octet_plain d) as [Pd Ld].
  unfold plainHost, IP_String in *. rewrite !allChars_app, !append_length.
  rewrite Pa, Pb, Pc, Pd. cbn [allChars String.length]. split; [reflexivity | lia].
Qed.

Lemma isHostChar_ascii (c : ascii) : isHostChar c = true -> (byteOf c <? 128)%Z = true.
Proof. destruct c as [[] [] [] [] [] [] [] []]; vm_compute; congruence. Qed.

Lemma plainHost_ascii (h : string) : plainHost h = true -> isASCII h = true.
Proof.
  unfold plainHost. induction h as [|c h IH]; [reflexivity|].
  cbn [allChars isASCII]. intros [Hc Hh]%andb_prop.
  change utf8.RuneSelf with 128%Z. now rewrite (isHostChar_ascii c Hc), IH.
Qed.

(** Lower-cased and with its dots replaced, a byte is fit for a label
    exactly when it is a letter, a digit, a dot or a dash. *)
Lemma isLabelChar_seed (c : ascii) :
  isLabelChar (if Ascii.eqb (toLowerChar c) "." then "-"%char else toLowerChar c)
  = isHostChar c.
Proof. destruct c as [[] [] [] [] [] [] [] []]; reflexivity. Qed.

Lemma allChars_seed (h : string) :
  allChars isLabelChar (ReplaceAll (lowerBytes h) "." "-") = plainHost h.
Proof.
  unfold plainHost. induction h as [|c h IH]; [reflexivity|].
  cbn [lowerBytes ReplaceAll allChars]. now rewrite isLabelChar_seed, IH.
Qed.

Lemma isLowerHex_alnum (c : ascii) : isLowerHex c = true -> isLowerAlnum c = true.
Proof. destruct c as [[] [] [] [] [] [] [] []]; vm_compute; congruence. Qed.

Lemma isLowerAlnum_label (c : ascii) : isLowerAlnum c = true -> isLabelChar c = true.
Proof. unfold isLabelChar. now intros ->. Qed.

Lemma append_nonempty (a b : string) : b <> "" -> a +:+ b <> "".
Proof. destruct a; [now rewrite append_nil | discriminate]. Qed.

Lemma lastChar_app (a b : string) :
  b <> "" -> lastChar (a +:+ b) = lastChar b.
Proof.
  intros Hb. induction a as [|c a IH]; [reflexivity|].
  rewrite append_cons. cbn [lastChar]. rewrite IH.
  destruct (a +:+ b) eqn:E; [|reflexivity].
  destruct a; [rewrite append_nil in E; contradiction | discriminate E].
Qed.

Lemma lastChar_allChars (p : ascii -> bool) (s : string) :
  s <> "" -> allChars p s = true -> exists c, lastChar s = Some c /\ p c = true.
Proof.
  induction s as [|c s IH]; [easy | intros _].
  cbn [allChars]. intros [Hc Hs]%andb_prop.
  destruct s as [|d s]; [exists c; auto|].
  destruct (IH ltac:(discriminate) Hs) as (x & Hx & Hp). exists x. auto.
Qed.

(** The name made from an ASCII seed is a DNS label exactly when the seed
    is written with letters, digits, dots and dashes and has at most 49
    bytes: the name is 14 bytes longer. *)
Lemma newNodeName_label (To_LowerCase : Z -> Z) (seed : string) (src : nat -> byte) :
  isASCII seed = true ->
  validDNSLabel (newNodeName To_LowerCase seed (map src (seq 0 5)))
  = plainHost seed && (String.length seed <=? 49)%nat.
Proof.
  intros Hs. rewrite (newNodeName_ascii _ _ _ Hs).
  pose proof (lowerBytes_lowerHex (map src (seq 0 5))) as Hhex.
  assert (Hlen : String.length (lowerBytes (SprintfX (map src (seq 0 5)))) = 10%nat)
    by (rewrite lowerBytes_length; reflexivity).
  set (h := lowerBytes (SprintfX (map src (seq 0 5)))) in *.
  assert (Hne : h <> "") by (intros E; rewrite E in Hlen; discriminate Hlen).
  destruct (lastChar_allChars _ _ Hne Hhex) as (x & Hx & Hp).
  unfold validDNSLabel.
  rewrite !lastChar_app by (repeat apply append_nonempty; exact Hne).
  rewrite Hx, (isLowerHex_alnum _ Hp).
  rewrite !allChars_app, allChars_seed, !append_length, ReplaceAll_length, lowerBytes_length, Hlen.
  rewrite (allChars_impl isLowerHex isLabelChar h
             (fun c Hc => isLowerAlnum_label c (isLowerHex_alnum c Hc)) Hhex).
  rewrite !append_cons.
  change (allChars isLabelChar "ip-") with true.
  change (allChars isLabelChar "-") with true.
  change (isLowerAlnum "i") with true. cbn [String.length Nat.add andb].
  rewrite !andb_true_r.
  destruct (plainHost seed); [|now rewrite andb_false_r].
  rewrite andb_true_r.
  destruct (Nat.leb_spec (String.length seed) 49);
    destruct (Nat.leb_spec (S (S (S (String.length seed + 11)))) 63); first [reflexivity | lia].
Qed.

(** ** Resolution of the server address *)

Lemma last_cons_default {A} (x : A) (l : list A) (d d' : A) :
  List.last (x :: l) d = List.last (x :: l) d'.
Proof.
  revert x. induction l as [|y l IH]; intros x; [reflexivity|].
  change (List.last (y :: l) d = List.last (y :: l) d'). apply IH.
Qed.

Lemma last_app_default {A} (l1 l2 : list A) (d : A) :
  List.last (l1 ++ l2) d = List.last l2 (List.last l1 d).
Proof.
  revert d. induction l1 as [|x l1 IH]; intros d; [reflexivity|].
  destruct l1 as [|y l1].
  - destruct l2 as [|z l2]; [reflexivity|].
    change (List.last (z :: l2) d = List.last (z :: l2) x). apply last_cons_default.
  - exact (IH d).
Qed.

Lemma scanAddrs_last (addr : list Addr) (serverIp : string) :
  scanAddrs addr serverIp = List.last (ipv4Strings addr) serverIp.
Proof.
  revert serverIp. induction addr as [|a addr IH]; intros serverIp; [reflexivity|].
  cbn [scanAddrs]. rewrite IH. unfold ipv4Strings at 2. cbn [flat_map]. fold ipv4Strings.
  rewrite last_app_default.
  destruct a as [ip|]; [destruct ip|]; reflexivity.
Qed.

Lemma scanInterfaces_last (networkInterface : string) (ifaces : list Interface)
    (serverIp : string) :
  addrsListed networkInterface ifaces = true ->
  scanInterfaces networkInterface ifaces serverIp
  = Ok (List.last (ipv4Strings (addrsOf networkInterface ifaces)) serverIp).
Proof.
  revert serverIp. induction ifaces as [|iface ifaces IH]; intros serverIp; [reflexivity|].
  cbn [addrsListed forallb scanInterfaces]. intros [Hi Hr]%andb_prop.
  unfold addrsOf. cbn [flat_map]. fold (addrsOf networkInterface ifaces).
  unfold ipv4Strings. rewrite flat_map_app, last_app_default. fold ipv4Strings.
  destruct (String.eqb (iface_Name iface) networkInterface).
  - destruct (iface_Addrs iface) as [addr|e]; [|discriminate].
    rewrite (IH _ Hr), scanAddrs_last. reflexivity.
  - rewrite (IH _ Hr). reflexivity.
Qed.

Lemma scanAddrs_ipv4 (addr : list Addr) (serverIp : string) :
  ipv4OrEmpty serverIp -> ipv4OrEmpty (scanAddrs addr serverIp).
Proof.
  revert serverIp. induction addr as [|a addr IH]; intros serverIp H; [exact H|].
  cbn [scanAddrs]. apply IH.
  destruct a as [ip|]; [|exact H].
  destruct (To4 ip) eqn:E; [|exact H]. right; eauto.
Qed.

Lemma scanInterfaces_ipv4 (networkInterface : string) (ifaces : list Interface)
    (serverIp ip : string) :
  ipv4OrEmpty serverIp ->
  scanInterfaces networkInterface ifaces serverIp = Ok ip -> ipv4OrEmpty ip.
Proof.
  revert serverIp. induction ifaces as [|iface ifaces IH]; intros serverIp H; cbn [scanInterfaces].
  - now intros [= <-].
  - destruct (String.eqb (iface_Name iface) networkInterface); [|now apply IH].
    destruct (iface_Addrs iface) as [addr|e]; [|discriminate].
    apply IH. now apply scanAddrs_ipv4.
Qed.

Lemma length_nonzero_string (s : string) : (String.length s =? 0)%nat = false -> s <> "".
Proof. destruct s; [discriminate | discriminate]. Qed.

Lemma length_zero_string (s : string) : (String.length s =? 0)%nat = true -> s = "".
Proof. destruct s; [reflexivity | discriminate]. Qed.

Lemma init_installer (w : World) (cfg : gmap (string * string) string)
    (taint : bool) (i : ExecCommandInput) :
  In (EvExec i) (trace (snd (CommandInitialize w taint (initState cfg)))) ->
  In "--cluster-init" (Exec_Args i) ->
  exists ifaces serverIp src,
    net_Interfaces w = Ok ifaces /\
    scanInterfaces (networkInterfaceOf w cfg) ifaces "" = Ok serverIp /\
    serverIp <> "" /\
    Exec_Args i = initializeArgs
                    (newNodeName (unicode_To_LowerCase w) serverIp (map src (seq 0 5)))
                    (tokenOf cfg) taint.
Proof.
  unfold CommandInitialize. red_m. fold (tokenOf cfg). fold (networkInterfaceOf w cfg).
  repeat step.
  all: intros H Hc; in_cases H.
  all: injection H as <-.
  all: try (exfalso; cbv [Exec_Args aptPackages RegistryConfigPath] in Hc; in_cases Hc; fail).
  all: do 3 eexists; repeat split; try reflexivity; try eassumption.
  all: now apply length_nonzero_string.
Qed.

Lemma add_installer (w : World) (cfg : gmap (string * string) string)
    (role remoteHost : string) (allow taint : bool) (i : SshCommandInput) :
  In (EvSsh i) (trace (snd (CommandClusterAdd w role remoteHost allow taint (initState cfg)))) ->
  Ssh_Command i = installerPath ->
  exists ifaces serverIp hostname src,
    (taint && String.eqb role "worker" = false) /\
    net_Interfaces w = Ok ifaces /\
    scanInterfaces (networkInterfaceOf w cfg) ifaces "" = Ok serverIp /\
    serverIp <> "" /\
    url_Parse_Hostname w remoteHost = Ok hostname /\
    Ssh_Args i = clusterAddArgs role
                   (newNodeName (unicode_To_LowerCase w) hostname (map src (seq 0 5)))
                   serverIp (tokenOf cfg) taint.
Proof.
  unfold CommandClusterAdd. red_m. fold (tokenOf cfg). fold (networkInterfaceOf w cfg).
  repeat step.
  all: intros H Hc; in_cases H.
  all: injection H as <-; try discriminate Hc.
  all: do 4 eexists; repeat split; try reflexivity; try eassumption.
  all: now apply length_nonzero_string.
Qed.

(** ** The commands *)

(** C3.  In every run of [CommandClusterRemove], a call to delete a node is
    made only when the fetched node's remote uninstall command was executed
    before it and came back with exit code 0 and no transport error.  When
    that command does not come back so, the removal ends in an error and no
    delete call is made at all: the node object is left as it was. *)
Theorem remove_deletes_only_after_uninstall (w : World)
    (cfg : gmap (string * string) string) (nodeName : string) :
  let run := CommandClusterRemove w nodeName (initState cfg) in
  (forall n, In (EvDeleteNode n) (trace (snd run)) ->
     exists node pre post,
       GetNode w nodeName = Ok node /\
       succeeded (CallSshCommand w (uninstallInput (node_RemoteHost node))) = true /\
       trace (snd run) = pre ++ EvSsh (uninstallInput (node_RemoteHost node)) :: post /\
       In (EvDeleteNode n) post) /\
  (forall node, GetNode w nodeName = Ok node ->
     succeeded (CallSshCommand w (uninstallInput (node_RemoteHost node))) = false ->
     (exists e, fst run = Err e) /\ forall n, ~ In (EvDeleteNode n) (trace (snd run))).
Proof.
  cbv zeta. unfold CommandClusterRemove, uninstallInput, succeeded. red_m.
  repeat step.
  all: split; [intros n H | intros node0 Hg Hs; try discriminate].
  all: try (in_cases H; fail).
  all: try (injection Hg as <-).
  all: try (split; [eexists; reflexivity | intros n H; in_cases H]; fail).
  all: try (exfalso; rewrite ?Heqr0, ?Heqr1 in Hs;
            apply negb_false_iff in Heqb0; congruence).
  all: eexists; eexists (_ :: _ :: _ :: _ :: _ :: _ :: []); eexists;
       (split; [reflexivity|]);
       (split; [rewrite Heqr0; now apply negb_false_iff|]);
       (split; [reflexivity|]); cbn [In]; in_cases H; injection H as <-; auto.
Qed.

(** C5.  When the node fetched by [CommandClusterRemove] carries an empty
    remote-host annotation, the removal returns the "not a remote node
    managed by Dokku" error and no command is run over ssh. *)
Theorem remove_refuses_unmanaged_node (w : World)
    (cfg : gmap (string * string) string) (nodeName : string) (node : Node) :
  isK3sInstalled w = None ->
  NewKubernetesClient w = None ->
  GetNode w nodeName = Ok node ->
  node_RemoteHost node = "" ->
  let run := CommandClusterRemove w nodeName (initState cfg) in
  fst run = Err (Errorf "Node %s is not a remote node managed by Dokku" [ArgS nodeName]) /\
  forall i, ~ In (EvSsh i) (trace (snd run)).
Proof.
  intros Hk Hc Hg Hr. cbv zeta. unfold CommandClusterRemove. red_m.
  rewrite Hk, Hc. red_m. rewrite Hg. red_m. rewrite Hr. cbn [String.eqb]. red_m.
  split; [reflexivity | intros i H; in_cases H].
Qed.

(** C4, as amended.  A join of a worker with taint scheduling, a join with a
    role other than ["server"] and ["worker"], and a join without a persisted
    token are each rejected with the state untouched: the trace stays empty,
    so no external command, local or remote, has been run.  Which error is
    returned follows the order of the checks: with k3s installed, an invalid
    role gives the invalid-role error; a valid role without token gives the
    missing-token error; and a worker with taint scheduling gives the
    invalid-combination error when a token is persisted. *)
Theorem add_rejects_before_any_command (w : World)
    (cfg : gmap (string * string) string) (role remoteHost : string)
    (allow taint : bool) :
  (taint = true /\ role = "worker") \/ invalidRole role = true \/ tokenOf cfg = "" ->
  exists e,
    CommandClusterAdd w role remoteHost allow taint (initState cfg)
    = (Err e, initState cfg) /\
    (isK3sInstalled w = None ->
       (invalidRole role = true -> e = Errorf "Invalid server-type: %s" [ArgS role]) /\
       (invalidRole role = false -> tokenOf cfg = "" -> e = Errorf "Missing k3s token" []) /\
       (tokenOf cfg <> "" -> taint = true -> role = "worker" ->
          e = Errorf "Taint scheduling can only be used on the server role" [])).
Proof.
  unfold CommandClusterAdd, invalidRole, tokenOf. red_m.
  step; [intros _; eexists; split; [reflexivity | discriminate]|].
  step.
  { intros _. eexists; split; [reflexivity | intros _; repeat split; try congruence].
    intros _ _ ->. discriminate. }
  step.
  { intros _. eexists; split; [reflexivity | intros _; repeat split; try congruence].
    intros Hne. now apply length_zero_string in Heqb0. }
  apply length_nonzero_string in Heqb0.
  intros [[-> ->]|[H|H]]; [|discriminate|contradiction].
  cbn [andb String.eqb Ascii.eqb Bool.eqb]. red_m.
  eexists; split; [reflexivity | intros _; repeat split; congruence].
Qed.

(** C6.  When the wait that follows a join is reached and returns an empty
    node list without error, [CommandClusterAdd] returns the "unable to find
    node" error, which has not the shape of a transport failure, and the
    trace holds no copy of the registry credentials, no labeling and no
    annotation of a node. *)
Theorem add_fails_on_unobserved_join (w : World)
    (cfg : gmap (string * string) string) (role remoteHost : string)
    (allow taint : bool) (name : string) :
  let run := CommandClusterAdd w role remoteHost allow taint (initState cfg) in
  In (EvWaitForNodeToExist name 20) (trace (snd run)) ->
  waitForNodeToExist w name 20 = Ok [] ->
  fst run = Err joinNotObserved /\
  transportFailure joinNotObserved = false /\
  (forall h, ~ In (EvCopyRegistryToNode h) (trace (snd run))) /\
  (forall n k v, ~ In (EvLabelNode n k v) (trace (snd run))) /\
  (forall n k v, ~ In (EvAnnotateNode n k v) (trace (snd run))).
Proof.
  cbv zeta. unfold CommandClusterAdd. red_m.
  repeat step.
  all: intros H Hw; in_cases H.
  all: injection H as <-.
  all: match goal with
       | Hx : waitForNodeToExist _ _ _ = _ |- _ =>
           tryif constr_eq Hx Hw then fail
           else (pose proof (eq_trans (eq_sym Hw) Hx) as Hy; clear Hw)
       end;
       try discriminate Hy; try (injection Hy as <-); try discriminate.
  all: repeat split; unfold not; intros;
       match goal with H' : In _ _ |- _ => in_cases H' end.
Qed.

Lemma Split_nonempty (s : string) (sep : ascii) : Split s sep <> [].
Proof.
  induction s as [|c s IH]; cbn [Split]; [discriminate|].
  destruct (Ascii.eqb c sep); [discriminate|].
  destruct (Split s sep); [contradiction | discriminate].
Qed.

(** C8.  Once [k3s --version] has run with exit code 0: if the first line of
    its output does not split on spaces into exactly 4 fields, the join
    returns the "unable to get k3s version" error and no command has been run
    over ssh; if it does, the third field is the version (it is the one
    logged). *)
Theorem add_checks_version_fields (w : World)
    (cfg : gmap (string * string) string) (role remoteHost : string)
    (allow taint : bool) (resp : ExecCommandResponse) :
  let run := CommandClusterAdd w role remoteHost allow taint (initState cfg) in
  let parts := Split (firstLine (Stdout resp)) " " in
  In (EvExec k3sVersionInput) (trace (snd run)) ->
  CallExecCommand w k3sVersionInput = Ok resp ->
  ExitCode resp = 0%Z ->
  (length parts <> 4 ->
     fst run = Err (Errorf "Unable to get k3s version from k3s --version: %s"
                      [ArgS (Stdout resp)]) /\
     forall i, ~ In (EvSsh i) (trace (snd run))) /\
  (length parts = 4 ->
     In (EvLog "LogDebug" ("k3s version: " +:+ nth 2 parts "")) (trace (snd run))).
Proof.
  cbv zeta. unfold CommandClusterAdd, firstLine. red_m.
  repeat step.
  all: intros H Hr He; in_cases H; try discriminate Hr.
  all: injection Hr as <-.
  all: try (rewrite He in *; discriminate).
  all: try (exfalso; eapply Split_nonempty; eassumption).
  all: match goal with Hs : Split _ "010" = _ |- _ => rewrite Hs; cbn [hd] end.
  all: match goal with
       | Hl : negb (_ =? 4)%nat = true |- _ =>
           apply negb_true_iff, Nat.eqb_neq in Hl
       | Hl : negb (_ =? 4)%nat = false |- _ =>
           apply negb_false_iff, Nat.eqb_eq in Hl
       end.
  all: split; [intros Hn; try contradiction | intros Hn; try contradiction].
  all: try (split; [reflexivity | intros i Hi; in_cases Hi]).
  all: cbn [In]; auto.
Qed.

Lemma scanInterfaces_error (networkInterface : string) (ifaces : list Interface)
    (serverIp : string) (e : error) :
  scanInterfaces networkInterface ifaces serverIp = Err e ->
  exists err, e = Errorf "Unable to get network addresses for interface %s: %w"
                    [ArgS networkInterface; ArgW err].
Proof.
  revert serverIp. induction ifaces as [|iface ifaces IH]; intros serverIp;
    cbn [scanInterfaces]; [discriminate|].
  destruct (String.eqb (iface_Name iface) networkInterface); [|apply IH].
  destruct (iface_Addrs iface) as [addr|err]; [apply IH|].
  intros [= <-]. eauto.
Qed.

(** C10.  [CommandSet] returns nil on every input and in every state,
    whether or not the write to the property store went through; hence no
    run of [CommandInitialize] ends in the "Unable to set k3s token" error. *)
Theorem set_never_reports (w : World) :
  (forall appName property value st,
     fst (CommandSet w appName property value st) = Ok tt) /\
  (forall taintScheduling cfg e,
     fst (CommandInitialize w taintScheduling (initState cfg))
     <> Err (Errorf "Unable to set k3s token: %w" [ArgW e])).
Proof.
  split.
  - intros appName property value st. unfold CommandSet. red_m.
    destruct (PropertyWrite w _ _ _ _); reflexivity.
  - intros taintScheduling cfg e. unfold CommandInitialize. red_m.
    repeat step. all: try discriminate.
    intros [= ->].
    match goal with Hs : scanInterfaces _ _ _ = Err _ |- _ =>
      apply scanInterfaces_error in Hs; destruct Hs as [err Hs]; discriminate Hs
    end.
Qed.

(** ** Argument lists *)

Lemma flagValue_node_name_init (n t : string) (taint : bool) :
  flagValue "--node-name" (initializeArgs n t taint) = Some n.
Proof. destruct taint; reflexivity. Qed.

Lemma flagValue_node_name_add (role n s t : string) (taint : bool) :
  flagValue "--node-name" (clusterAddArgs role n s t taint) = Some n.
Proof.
  unfold clusterAddArgs. destruct (String.eqb role "server"), taint; reflexivity.
Qed.

Lemma flagValue_server_add (To_LowerCase : Z -> Z) (role h s t : string) (b : list byte)
    (taint : bool) :
  flagValue "--server" (clusterAddArgs role (newNodeName To_LowerCase h b) s t taint)
  = Some ("https://" +:+ s +:+ ":6443").
Proof.
  rewrite newNodeName_eq. unfold clusterAddArgs.
  destruct (String.eqb role "server"), taint; reflexivity.
Qed.

(** C1, which the code does not meet.  A bootstrap on a host without a
    persisted token runs to the end; it generates the token [0102030405] and
    persists it, yet the value that follows [--token] in the arguments of the
    installer is the empty string read before the token was generated. *)
Theorem fresh_bootstrap_passes_empty_token :
  let run := CommandInitialize (Demo.bootstrapHost [Demo.ip5]) false (initState Demo.noConfig) in
  tokenOf Demo.noConfig = "" /\
  fst run = Ok tt /\
  In (EvPropertySet "scheduler-k3s" "--global" "token" "0102030405") (trace (snd run)) /\
  tokenOf (store (snd run)) = "0102030405" /\
  exists i, In (EvExec i) (trace (snd run)) /\
            In "--cluster-init" (Exec_Args i) /\
            flagValue "--token" (Exec_Args i) = Some "".
Proof.
  cbv zeta. split; [reflexivity|]. split; [vm_compute; reflexivity|].
  split; [solve_In|]. split; [vm_compute; reflexivity|].
  exists {| Exec_Command := "/tmp/sample123";
            Exec_Args := initializeArgs "ip-10-0-0-5-1112131415" "" false;
            Exec_StreamStdio := true; Exec_CaptureOutput := false |}.
  split; [solve_In|]. split; [solve_In | reflexivity].
Qed.

(** C7.  In a join with role ["worker"], the arguments of the remote
    installer contain [--disable-etcd], [--disable-apiserver],
    [--disable-controller-manager] and [--disable-scheduler], the pair
    [--server https://s:6443] for the resolved server address [s], and the
    pair [--token t] for the persisted token [t]; and they contain no
    [--node-taint] flag, whatever the token is.  Read as a command line, the
    arguments hold the four flags, the two options with these values, and no
    option [--node-taint]; the string [--node-taint] can occur among them
    only as the argument that follows [--token]. *)
Theorem worker_join_flags (w : World) (cfg : gmap (string * string) string)
    (remoteHost : string) (allow taint : bool) (i : SshCommandInput) :
  In (EvSsh i)
     (trace (snd (CommandClusterAdd w "worker" remoteHost allow taint (initState cfg)))) ->
  Ssh_Command i = installerPath ->
  exists ifaces s,
    net_Interfaces w = Ok ifaces /\
    scanInterfaces (networkInterfaceOf w cfg) ifaces "" = Ok s /\
    Forall (fun flag => In flag (Ssh_Args i) /\ In (flag, None) (options (Ssh_Args i)))
      ["--disable-etcd"; "--disable-apiserver"; "--disable-controller-manager";
       "--disable-scheduler"] /\
    adjacent "--server" ("https://" +:+ s +:+ ":6443") (Ssh_Args i) /\
    In ("--server", Some ("https://" +:+ s +:+ ":6443")) (options (Ssh_Args i)) /\
    adjacent "--token" (tokenOf cfg) (Ssh_Args i) /\
    In ("--token", Some (tokenOf cfg)) (options (Ssh_Args i)) /\
    ~ In "--node-taint" (flags (Ssh_Args i)) /\
    (forall k, nth_error (Ssh_Args i) k = Some "--node-taint" ->
       exists k', k = S k' /\ nth_error (Ssh_Args i) k' = Some "--token").
Proof.
  intros H Hc.
  destruct (add_installer _ _ _ _ _ _ _ H Hc)
    as (ifaces & s & hostname & src & Ht & Hn & Hs & _ & _ & ->).
  rewrite andb_false_iff in Ht. destruct Ht as [-> | Ht]; [|discriminate Ht].
  exists ifaces, s. split; [exact Hn|]. split; [exact Hs|].
  rewrite newNodeName_eq. unfold clusterAddArgs, flags.
  cbn [String.eqb Ascii.eqb Bool.eqb app options takesValue existsb orb map fst].
  split; [repeat (apply List.Forall_cons; [split; cbn [In]; auto 20|]); apply List.Forall_nil|].
  split; [eexists (_ :: _ :: _ :: _ :: _ :: []), _; reflexivity|].
  split; [cbn [In]; auto 20|].
  split; [eexists (_ :: _ :: _ :: _ :: _ :: _ :: _ :: []), _; reflexivity|].
  split; [cbn [In]; auto 20|].
  split; [intros Hin; in_cases Hin|].
  intros k Hk.
  do 15 (destruct k as [|k];
         [cbn [nth_error] in Hk;
          first [discriminate Hk | exists 7%nat; split; reflexivity]|]).
  destruct k; discriminate Hk.
Qed.

(** The reading sees a taint where there is one: in the arguments of a
    server joined with taint scheduling, [--node-taint] is an option and has
    its value. *)
Remark server_taint_is_an_option (n s t : string) :
  In ("--node-taint", Some "CriticalAddonsOnly=true:NoSchedule")
     (options (clusterAddArgs "server" n s t true)) /\
  In "--node-taint" (flags (clusterAddArgs "server" n s t true)).
Proof.
  unfold clusterAddArgs, flags.
  cbn [String.eqb Ascii.eqb Bool.eqb app options takesValue existsb orb map fst].
  split; cbn [In]; auto 30.
Qed.

(** ** Node names *)

Lemma newNodeName_spec (To_LowerCase : Z -> Z) (seed : string) (src : nat -> byte) :
  specNodeName (ToLower To_LowerCase seed)
    (newNodeName To_LowerCase seed (map src (seq 0 5))).
Proof.
  exists (ToLower To_LowerCase (SprintfX (map src (seq 0 5)))).
  split; [apply suffix_lowerHex10|]. apply newNodeName_eq.
Qed.

(** C9, as amended.  The node name handed to the installer contains no dot
    and has the form [ip-<seed>-<10 lower-case hexadecimal characters>],
    where the seed has its dots replaced by dashes and is, for bootstrap,
    the printed IPv4 address of the server and, for join, the parsed host
    name as [strings.ToLower] returns it.  The name of a bootstrap is always
    a valid DNS label, entirely lower-case.  The name of a join is entirely
    lower-case when the host name is ASCII, and then it is a valid DNS label
    exactly when the host name is written with letters, digits, dots and
    dashes only and has at most 49 bytes. *)
Theorem node_names_are_labels (w : World) (cfg : gmap (string * string) string) :
  (forall taint i n,
     In (EvExec i) (trace (snd (CommandInitialize w taint (initState cfg)))) ->
     In "--cluster-init" (Exec_Args i) ->
     flagValue "--node-name" (Exec_Args i) = Some n ->
     validDNSLabel n = true /\ lowerCase n = true /\ dotFree n = true /\
     exists ifaces ip,
       net_Interfaces w = Ok ifaces /\
       scanInterfaces (networkInterfaceOf w cfg) ifaces "" = Ok (IP_String ip) /\
       To4 ip = true /\
       specNodeName (IP_String ip) n) /\
  (forall role remoteHost allow taint i n,
     In (EvSsh i)
        (trace (snd (CommandClusterAdd w role remoteHost allow taint (initState cfg)))) ->
     Ssh_Command i = installerPath ->
     flagValue "--node-name" (Ssh_Args i) = Some n ->
     dotFree n = true /\
     exists hostname,
       url_Parse_Hostname w remoteHost = Ok hostname /\
       specNodeName (ToLower (unicode_To_LowerCase w) hostname) n /\
       (isASCII hostname = true ->
        lowerCase n = true /\
        validDNSLabel n = plainHost hostname && (String.length hostname <=? 49)%nat)).
Proof.
  split.
  - intros taint i n H Hc Hn.
    destruct (init_installer _ _ _ _ H Hc) as (ifaces & s & src & Hi & Hs & Hne & Ha).
    rewrite Ha, flagValue_node_name_init in Hn. apply (inj Some) in Hn. subst n.
    destruct (scanInterfaces_ipv4 _ _ "" s (or_introl eq_refl) Hs) as [->|(ip & Hip & ->)];
      [contradiction|].
    destruct (IP_String_plain ip Hip) as [Hp Hl].
    pose proof (plainHost_ascii _ Hp) as Hascii.
    split; [|split; [|split]].
    + rewrite newNodeName_label by exact Hascii. rewrite Hp.
      now apply Nat.leb_le; lia.
    + now apply newNodeName_lowerCase.
    + apply newNodeName_dotFree.
    + exists ifaces, ip. repeat split; try assumption.
      rewrite <- (lowerBytes_lowerCase (IP_String ip)) at 1 by now apply IP_String_lowerCase.
      rewrite <- (ToLower_ascii (unicode_To_LowerCase w)) by exact Hascii.
      apply newNodeName_spec.
  - intros role remoteHost allow taint i n H Hc Hn.
    destruct (add_installer _ _ _ _ _ _ _ H Hc)
      as (ifaces & s & hostname & src & _ & _ & _ & _ & Hu & Ha).
    rewrite Ha, flagValue_node_name_add in Hn. apply (inj Some) in Hn. subst n.
    split; [apply newNodeName_dotFree|].
    exists hostname. split; [exact Hu|]. split; [apply newNodeName_spec|].
    intros Hascii. split; [now apply newNodeName_lowerCase | now apply newNodeName_label].
Qed.

(** ** The server address *)

(** C2, as amended.  When the addresses of the configured interface can be
    listed, bootstrap and join take the last of its IPv4 addresses as the
    server address: bootstrap names the node after it, join passes it as
    [--server].  When the interface carries no IPv4 address, both commands
    end in an error with the state untouched, so before any external command;
    the error is the "unable to determine server ip address" one as soon as
    the checks made earlier pass. *)
Theorem server_ip_is_last_ipv4 (w : World) (cfg : gmap (string * string) string)
    (ifaces : list Interface) :
  net_Interfaces w = Ok ifaces ->
  addrsListed (networkInterfaceOf w cfg) ifaces = true ->
  let networkInterface := networkInterfaceOf w cfg in
  let serverIp := lastIPv4 networkInterface ifaces in
  (forall taint i,
     In (EvExec i) (trace (snd (CommandInitialize w taint (initState cfg)))) ->
     In "--cluster-init" (Exec_Args i) ->
     exists src,
       flagValue "--node-name" (Exec_Args i)
       = Some (newNodeName (unicode_To_LowerCase w) serverIp (map src (seq 0 5)))) /\
  (forall role remoteHost allow taint i,
     In (EvSsh i)
        (trace (snd (CommandClusterAdd w role remoteHost allow taint (initState cfg)))) ->
     Ssh_Command i = installerPath ->
     flagValue "--server" (Ssh_Args i) = Some ("https://" +:+ serverIp +:+ ":6443")) /\
  (ipv4Strings (addrsOf networkInterface ifaces) = [] ->
     (forall taint, exists e,
        CommandInitialize w taint (initState cfg) = (Err e, initState cfg) /\
        (isK3sInstalled w <> None -> e = noServerIp networkInterface)) /\
     (forall role remoteHost allow taint, exists e,
        CommandClusterAdd w role remoteHost allow taint (initState cfg)
        = (Err e, initState cfg) /\
        (isK3sInstalled w = None -> invalidRole role = false -> tokenOf cfg <> "" ->
         taint && String.eqb role "worker" = false ->
         e = noServerIp networkInterface))).
Proof.
  intros Hnet Hl. cbv zeta.
  pose proof (scanInterfaces_last _ _ "" Hl) as Hscan. fold (lastIPv4 (networkInterfaceOf w cfg) ifaces) in Hscan.
  split; [|split].
  - intros taint i H Hc.
    destruct (init_installer _ _ _ _ H Hc) as (ifaces' & s & src & Hi & Hs & _ & Ha).
    rewrite Hnet in Hi. injection Hi as <-. rewrite Hscan in Hs. injection Hs as <-.
    exists src. rewrite Ha. apply flagValue_node_name_init.
  - intros role remoteHost allow taint i H Hc.
    destruct (add_installer _ _ _ _ _ _ _ H Hc)
      as (ifaces' & s & hostname & src & _ & Hi & Hs & _ & _ & Ha).
    rewrite Hnet in Hi. injection Hi as <-. rewrite Hscan in Hs. injection Hs as <-.
    rewrite Ha. apply flagValue_server_add.
  - intros Hnone. unfold lastIPv4 in Hscan. rewrite Hnone in Hscan. cbn [List.last] in Hscan.
    unfold networkInterfaceOf in *.
    split.
    + intros taint. unfold CommandInitialize, noServerIp. red_m.
      repeat first [ rewrite Hnet; red_m; rewrite Hscan; cbn [String.length Nat.eqb]; red_m
                   | step ];
        eexists; (split; [reflexivity | congruence]).
    + intros role remoteHost allow taint. unfold CommandClusterAdd, noServerIp, invalidRole, tokenOf.
      red_m.
      repeat first [ rewrite Hnet; red_m; rewrite Hscan; cbn [String.length Nat.eqb]; red_m
                   | step ];
        eexists; (split; [reflexivity|]); intros; try congruence.
      exfalso. match goal with Hx : _ <> "" |- _ => apply Hx end.
      now apply length_zero_string.
Qed.

Import Demo.

(** ** Where the claims fail *)

(** C2 fails as stated: with [10.0.0.5] and [10.0.0.6] on [eth0], join does
    not pass the first address as [--server]. *)
Lemma first_ipv4_not_selected :
  ~ joinSelectsFirstIPv4 (controlNode [ip5; ip6] "worker1") (withToken "abc123").
Proof.
  intros Hclaim.
  specialize (Hclaim [lo; eth0 [ip5; ip6]] "worker" worker1 false false
    (installerCall (clusterAddArgs "worker" "ip-worker1-0102030405" "10.0.0.6" "abc123" false))
    eq_refl).
  assert (Hin : In (EvSsh (installerCall (clusterAddArgs "worker" "ip-worker1-0102030405"
                                           "10.0.0.6" "abc123" false)))
                  (trace (snd (CommandClusterAdd (controlNode [ip5; ip6] "worker1") "worker" worker1
                                 false false (initState (withToken "abc123"))))))
    by solve_In.
  specialize (Hclaim Hin eq_refl). vm_compute in Hclaim. discriminate Hclaim.
Qed.

(** C4 fails as stated: without a persisted token, a worker with taint
    scheduling is rejected with the missing-token error. *)
Lemma tainted_worker_without_token :
  ~ taintedWorkerIsInvalidCombination (controlNode [ip5] "worker1") noConfig.
Proof.
  intros Hclaim. specialize (Hclaim worker1 false).
  vm_compute in Hclaim. discriminate Hclaim.
Qed.

(** C9 fails as stated, twice over: the host name [Node.Example] is also
    put in lower case, so the name is not the one built from the host name
    with only its dots replaced; and the host name [my_host] keeps its
    underscore, so the name is no DNS label. *)
Lemma host_name_is_lowered_and_kept :
  ~ joinNameFromHostname (controlNode [ip5] "Node.Example") (withToken "abc123") /\
  ~ joinNameIsLabel (controlNode [ip5] "my_host") (withToken "abc123").
Proof.
  split; intros Hclaim.
  - assert (Hin : In (EvSsh (sshInput installerPath
                               (clusterAddArgs "worker" "ip-node-example-0102030405"
                                  "10.0.0.5" "abc123" false)
                               false "ssh://root@Node.Example" true))
                    (trace (snd (CommandClusterAdd (controlNode [ip5] "Node.Example") "worker"
                                   "ssh://root@Node.Example" false false
                                   (initState (withToken "abc123"))))))
      by solve_In.
    destruct (Hclaim _ _ _ _ _ "ip-node-example-0102030405" "Node.Example"
                Hin eq_refl eq_refl eq_refl) as (h & _ & Heq).
    vm_compute in Heq. discriminate Heq.
  - assert (Hin : In (EvSsh (sshInput installerPath
                               (clusterAddArgs "worker" "ip-my_host-0102030405"
                                  "10.0.0.5" "abc123" false)
                               false "ssh://root@my_host" true))
                    (trace (snd (CommandClusterAdd (controlNode [ip5] "my_host") "worker"
                                   "ssh://root@my_host" false false
                                   (initState (withToken "abc123"))))))
      by solve_In.
    specialize (Hclaim _ _ _ _ _ "ip-my_host-0102030405" Hin eq_refl eq_refl).
    vm_compute in Hclaim. discriminate Hclaim.
Qed.

(** ** The theorems at work on concrete runs *)

Lemma remove_refuses_unmanaged_node_witness :
  fst (CommandClusterRemove localNode "n1" (initState noConfig))
  = Err (Errorf "Node %s is not a remote node managed by Dokku" [ArgS "n1"]) /\
  forall i, ~ In (EvSsh i) (trace (snd (CommandClusterRemove localNode "n1" (initState noConfig)))).
Proof.
  apply (remove_refuses_unmanaged_node localNode noConfig "n1" (joined "n1"));
    reflexivity.
Defined.

Lemma remove_deletes_only_after_uninstall_witness :
  (exists node pre post,
     GetNode (controlNode [ip5] "") "n1" = Ok node /\
     succeeded (CallSshCommand (controlNode [ip5] "") (uninstallInput (node_RemoteHost node))) = true /\
     trace (snd (CommandClusterRemove (controlNode [ip5] "") "n1" (initState noConfig)))
     = pre ++ EvSsh (uninstallInput (node_RemoteHost node)) :: post /\
     In (EvDeleteNode "n1") post) /\
  ((exists e, fst (CommandClusterRemove uninstallFails "n1" (initState noConfig)) = Err e) /\
   forall n, ~ In (EvDeleteNode n)
                  (trace (snd (CommandClusterRemove uninstallFails "n1" (initState noConfig))))).
Proof.
  split.
  - apply (proj1 (remove_deletes_only_after_uninstall (controlNode [ip5] "") noConfig "n1")).
    solve_In.
  - apply (proj2 (remove_deletes_only_after_uninstall uninstallFails noConfig "n1")
             {| node_Name := "n1"; node_Ready := true; node_Roles := [];
                node_Version := "v1.28.5+k3s1"; node_RemoteHost := "root@worker1" |});
      reflexivity.
Defined.

Lemma add_rejects_before_any_command_witness :
  CommandClusterAdd (controlNode [ip5] "worker1") "worker" worker1 false true
    (initState (withToken "abc123"))
  = (Err invalidCombination, initState (withToken "abc123")) /\
  CommandClusterAdd (controlNode [ip5] "worker1") "agent" worker1 false false
    (initState (withToken "abc123"))
  = (Err (Errorf "Invalid server-type: %s" [ArgS "agent"]), initState (withToken "abc123")) /\
  CommandClusterAdd (controlNode [ip5] "worker1") "server" worker1 false false
    (initState noConfig)
  = (Err (Errorf "Missing k3s token" []), initState noConfig).
Proof.
  split; [|split].
  - destruct (add_rejects_before_any_command (controlNode [ip5] "worker1")
                (withToken "abc123") "worker" worker1 false true
                (or_introl (conj eq_refl eq_refl))) as (e & Hrun & He).
    destruct (He eq_refl) as (_ & _ & Ht).
    rewrite Hrun, (Ht ltac:(vm_compute; discriminate) eq_refl eq_refl). reflexivity.
  - destruct (add_rejects_before_any_command (controlNode [ip5] "worker1")
                (withToken "abc123") "agent" worker1 false false
                (or_intror (or_introl eq_refl))) as (e & Hrun & He).
    destruct (He eq_refl) as (Hr & _ & _).
    rewrite Hrun, (Hr eq_refl). reflexivity.
  - destruct (add_rejects_before_any_command (controlNode [ip5] "worker1")
                noConfig "server" worker1 false false
                (or_intror (or_intror eq_refl))) as (e & Hrun & He).
    destruct (He eq_refl) as (_ & Hm & _).
    rewrite Hrun, (Hm eq_refl eq_refl). reflexivity.
Defined.

Lemma add_fails_on_unobserved_join_witness :
  fst (CommandClusterAdd unobserved "worker" worker1 false false
         (initState (withToken "abc123"))) = Err joinNotObserved.
Proof.
  apply (add_fails_on_unobserved_join unobserved (withToken "abc123") "worker" worker1
           false false "ip-worker1-0102030405"); [solve_In | reflexivity].
Defined.

Lemma worker_join_flags_witness :
  ~ In "--node-taint"
       (flags (clusterAddArgs "worker" "ip-worker1-0102030405" "10.0.0.5" "--node-taint" false)).
Proof.
  destruct (worker_join_flags (controlNode [ip5] "worker1") (withToken "--node-taint") worker1
              false false
              (installerCall (clusterAddArgs "worker" "ip-worker1-0102030405" "10.0.0.5"
                                "--node-taint" false)))
    as (ifaces & s & _ & _ & _ & _ & _ & _ & _ & Hnt & _); [solve_In | reflexivity |].
  exact Hnt.
Defined.

Lemma add_checks_version_fields_witness :
  (fst (CommandClusterAdd oddVersion "worker" worker1 false false
          (initState (withToken "abc123")))
   = Err (Errorf "Unable to get k3s version from k3s --version: %s" [ArgS "k3s v1.28.5+k3s1"]) /\
   forall i, ~ In (EvSsh i)
                  (trace (snd (CommandClusterAdd oddVersion "worker" worker1 false false
                                 (initState (withToken "abc123")))))) /\
  In (EvLog "LogDebug" "k3s version: v1.28.5+k3s1")
     (trace (snd (CommandClusterAdd (controlNode [ip5] "worker1") "worker" worker1 false false
                    (initState (withToken "abc123"))))).
Proof.
  split.
  - apply (proj1 (add_checks_version_fields oddVersion (withToken "abc123") "worker" worker1
             false false {| Stdout := "k3s v1.28.5+k3s1"; ExitCode := 0 |}
             ltac:(solve_In) eq_refl eq_refl)).
    vm_compute. discriminate.
  - apply (proj2 (add_checks_version_fields (controlNode [ip5] "worker1") (withToken "abc123")
             "worker" worker1 false false {| Stdout := versionOutput; ExitCode := 0 |}
             ltac:(solve_In) eq_refl eq_refl)).
    reflexivity.
Defined.

Lemma node_names_are_labels_witness :
  (validDNSLabel "ip-10-0-0-5-1112131415" = true /\
   lowerCase "ip-10-0-0-5-1112131415" = true /\ dotFree "ip-10-0-0-5-1112131415" = true) /\
  (exists hostname,
     url_Parse_Hostname (controlNode [ip5] "Node.Example") worker1 = Ok hostname /\
     specNodeName (ToLower latin1 hostname) "ip-node-example-0102030405" /\
     (isASCII hostname = true ->
      lowerCase "ip-node-example-0102030405" = true /\
      validDNSLabel "ip-node-example-0102030405"
      = plainHost hostname && (String.length hostname <=? 49)%nat)).
Proof.
  split.
  - destruct (proj1 (node_names_are_labels (bootstrapHost [ip5]) noConfig) false
                (installerRun "/tmp/sample123"
                   (initializeArgs "ip-10-0-0-5-1112131415" "" false))
                "ip-10-0-0-5-1112131415")
      as (Hv & Hl & Hd & _); [solve_In | solve_In | reflexivity |].
    repeat split; assumption.
  - destruct (proj2 (node_names_are_labels (controlNode [ip5] "Node.Example")
                       (withToken "abc123")) "worker" worker1 false false
                (installerCall (clusterAddArgs "worker" "ip-node-example-0102030405"
                                  "10.0.0.5" "abc123" false))
                "ip-node-example-0102030405")
      as (_ & Hs); [solve_In | reflexivity | reflexivity |].
    exact Hs.
Defined.

Lemma server_ip_is_last_ipv4_witness :
  (exists src,
     flagValue "--node-name" (initializeArgs "ip-10-0-0-6-1112131415" "" false)
     = Some (newNodeName latin1 "10.0.0.6" (map src (seq 0 5)))) /\
  flagValue "--server"
    (clusterAddArgs "worker" "ip-worker1-0102030405" "10.0.0.6" "abc123" false)
  = Some "https://10.0.0.6:6443" /\
  (exists e,
     CommandInitialize (bootstrapHost []) false (initState noConfig)
     = (Err e, initState noConfig) /\
     (isK3sInstalled (bootstrapHost []) <> None -> e = noServerIp "eth0")) /\
  CommandClusterAdd (controlNode [] "worker1") "worker" worker1 false false
    (initState (withToken "abc123"))
  = (Err (noServerIp "eth0"), initState (withToken "abc123")).
Proof.
  split; [|split; [|split]].
  - apply (proj1 (server_ip_is_last_ipv4 (bootstrapHost [ip5; ip6]) noConfig
                    [lo; eth0 [ip5; ip6]] eq_refl eq_refl) false
             (installerRun "/tmp/sample123"
                (initializeArgs "ip-10-0-0-6-1112131415" "" false)));
      solve_In.
  - apply (proj1 (proj2 (server_ip_is_last_ipv4 (controlNode [ip5; ip6] "worker1")
                           (withToken "abc123") [lo; eth0 [ip5; ip6]] eq_refl eq_refl))
             "worker" worker1 false false
             (installerCall (clusterAddArgs "worker" "ip-worker1-0102030405" "10.0.0.6"
                               "abc123" false)));
      [solve_In | reflexivity].
  - apply (proj2 (proj2 (server_ip_is_last_ipv4 (bootstrapHost []) noConfig
                           [lo; eth0 []] eq_refl eq_refl)) eq_refl).
  - destruct (proj2 (proj2 (proj2 (server_ip_is_last_ipv4 (controlNode [] "worker1")
                                     (withToken "abc123") [lo; eth0 []] eq_refl eq_refl))
                       eq_refl) "worker" worker1 false false) as (e & Hrun & He).
    rewrite Hrun, (He eq_refl eq_refl ltac:(vm_compute; discriminate) eq_refl).
    reflexivity.
Defined.

(** * Beyond the claims *)

Ltac find_In := cbn [In]; repeat first [left; reflexivity | right].

(** The run of a command named once: its result and final state are bound to
    variables, and the run is taken through its paths from the equation that
    binds them. *)
Ltac name_run :=
  cbv zeta;
  let E := fresh "Erun" in
  match goal with
  | |- context [snd ?X] => destruct X as [? ?] eqn:E
  | |- context [fst ?X] => destruct X as [? ?] eqn:E
  end;
  cbv beta iota delta [fst snd];
  match type of E with
  | _ = (_, ?s) =>
      try (let Et := fresh "Etrace" in remember (trace s) as run_trace eqn:Et);
      try (let Es := fresh "Estore" in remember (store s) as run_store eqn:Es)
  end;
  revert E.

Ltac end_run :=
  let E := fresh "Erun" in
  intros E; apply pair_equal_spec in E; destruct E as [<- <-];
  repeat match goal with
         | Et : ?v = trace _ |- _ => cbv beta iota delta [trace] in Et; subst v
         | Es : ?v = store _ |- _ => cbv beta iota delta [store] in Es; subst v
         end.

Lemma add_installer_full (w : World) (cfg : gmap (string * string) string)
    (role remoteHost : string) (allow taint : bool) (i : SshCommandInput) :
  In (EvSsh i) (trace (snd (CommandClusterAdd w role remoteHost allow taint (initState cfg)))) ->
  Ssh_Command i = installerPath ->
  isK3sInstalled w = None /\
  invalidRole role = false /\
  tokenOf cfg <> "" /\
  (exists out, CallExecCommand w k3sVersionInput = Ok out /\ ExitCode out = 0%Z /\
               length (Split (firstLine (Stdout out)) " ") = 4) /\
  Forall (fun p => succeeded (CallSshCommand w p) = true) (joinPreparation allow remoteHost).
Proof.
  unfold CommandClusterAdd, invalidRole, tokenOf, firstLine. red_m.
  repeat step.
  all: intros H Hc; in_cases H.
  all: injection H as <-; try discriminate Hc.
  all: repeat match goal with
       | Hx : negb _ = false |- _ => apply negb_false_iff in Hx
       end.
  all: try (exfalso; eapply Split_nonempty; eassumption).
  all: split; [reflexivity|]; split; [reflexivity|];
       split; [now apply length_nonzero_string|]; split.
  all: try (eexists; split; [reflexivity|]; split; [now apply Z.eqb_eq|];
            match goal with Hs : Split _ "010" = _ |- _ => rewrite Hs end;
            cbn [hd]; now apply Nat.eqb_eq).
  all: try (unfold joinPreparation, succeeded;
            repeat constructor;
            match goal with Hx : CallSshCommand _ ?p = _ |- context [CallSshCommand _ ?p] =>
              rewrite Hx end;
            assumption).
Qed.

(** ** Join and removal, beyond the claims *)

(** X1.  Every command a join runs over ssh goes to the remote host it was
    given, with the trust toggle it was given and with streamed output; the
    registry credentials are copied to that host and no other. *)
Theorem join_targets_remote_host (w : World) (cfg : gmap (string * string) string)
    (role remoteHost : string) (allow taint : bool) :
  let run := CommandClusterAdd w role remoteHost allow taint (initState cfg) in
  (forall i, In (EvSsh i) (trace (snd run)) ->
     Ssh_RemoteHost i = remoteHost /\ Ssh_AllowUknownHosts i = allow /\
     Ssh_StreamStdio i = true) /\
  (forall h, In (EvCopyRegistryToNode h) (trace (snd run)) -> h = remoteHost).
Proof.
  name_run. unfold CommandClusterAdd. red_m.
  repeat step.
  all: end_run.
  all: split; [intros i Hev | intros h Hev]; in_cases Hev; injection Hev as <-.
  all: repeat split.
Qed.

(** X2.  Join and removal leave the persisted configuration as they found
    it, on every path. *)
Theorem join_and_removal_keep_configuration (w : World)
    (cfg : gmap (string * string) string) :
  (forall role remoteHost allow taint,
     store (snd (CommandClusterAdd w role remoteHost allow taint (initState cfg))) = cfg) /\
  (forall nodeName,
     store (snd (CommandClusterRemove w nodeName (initState cfg))) = cfg).
Proof.
  split.
  - intros role remoteHost allow taint. name_run. unfold CommandClusterAdd. red_m.
    repeat step. all: end_run. all: reflexivity.
  - intros nodeName. name_run. unfold CommandClusterRemove. red_m.
    repeat step. all: end_run. all: reflexivity.
Qed.

(** X3.  A node labeled by a join gets a label of the role's own set (the
    worker label for ["worker"], the server label otherwise), and it is the
    node whose name was handed to the installer and waited for. *)
Theorem join_labels_follow_role (w : World) (cfg : gmap (string * string) string)
    (role remoteHost : string) (allow taint : bool) (n k v : string) :
  let run := CommandClusterAdd w role remoteHost allow taint (initState cfg) in
  In (EvLabelNode n k v) (trace (snd run)) ->
  In (k, v) (labelsOf role) /\
  In (EvWaitForNodeToExist n 20) (trace (snd run)) /\
  exists i, In (EvSsh i) (trace (snd run)) /\ Ssh_Command i = installerPath /\
            flagValue "--node-name" (Ssh_Args i) = Some n.
Proof.
  name_run. unfold CommandClusterAdd, labelsOf. red_m.
  repeat step.
  all: end_run.
  all: intros Hev; in_cases Hev; injection Hev as <- <- <-.
  all: split; [cbn [In]; auto|].
  all: split; [find_In|].
  all: match goal with
       | |- context [EvSsh (sshInput "/tmp/k3s-installer.sh" ?a ?b ?c ?d)] =>
           exists (sshInput "/tmp/k3s-installer.sh" a b c d)
       end.
  all: split; [find_In|]; split; [reflexivity|].
  all: apply flagValue_node_name_add.
Qed.

Lemma length_Split (s : string) (sep : ascii) :
  length (Split s sep) = S (countChar sep s).
Proof.
  induction s as [|c s IH]; [reflexivity|].
  cbn [Split countChar]. destruct (Ascii.eqb c sep).
  - cbn [length]. now rewrite IH.
  - destruct (Split s sep) as [|p ps] eqn:E; [discriminate IH|]. exact IH.
Qed.

(** X4.  The installer of a join is run over ssh only after the local
    [k3s --version] and the four preparatory remote commands (apt update,
    apt install, curl, chmod) each came back with exit code 0 and no error. *)
Theorem join_installer_needs_preparation (w : World)
    (cfg : gmap (string * string) string) (role remoteHost : string)
    (allow taint : bool) (i : SshCommandInput) :
  In (EvSsh i) (trace (snd (CommandClusterAdd w role remoteHost allow taint (initState cfg)))) ->
  Ssh_Command i = installerPath ->
  succeeded (CallExecCommand w k3sVersionInput) = true /\
  Forall (fun p => succeeded (CallSshCommand w p) = true) (joinPreparation allow remoteHost).
Proof.
  intros H Hc.
  destruct (add_installer_full _ _ _ _ _ _ _ H Hc) as (_ & _ & _ & (out & Ho & He & _) & Hp).
  split; [|exact Hp]. rewrite Ho. cbn [succeeded]. now apply Z.eqb_eq.
Qed.

(** X5.  The installer of a join is run only when the first line of the
    output of [k3s --version] holds exactly three spaces; every space
    separates two fields, so two spaces in a row stop the join. *)
Theorem join_needs_three_spaces (w : World)
    (cfg : gmap (string * string) string) (role remoteHost : string)
    (allow taint : bool) (i : SshCommandInput) :
  In (EvSsh i) (trace (snd (CommandClusterAdd w role remoteHost allow taint (initState cfg)))) ->
  Ssh_Command i = installerPath ->
  exists out,
    CallExecCommand w k3sVersionInput = Ok out /\
    countChar " " (firstLine (Stdout out)) = 3.
Proof.
  intros H Hc.
  destruct (add_installer_full _ _ _ _ _ _ _ H Hc) as (_ & _ & _ & (out & Ho & _ & Hl) & _).
  exists out. split; [exact Ho|]. rewrite length_Split in Hl. now injection Hl.
Qed.

Lemma invalidRole_false (role : string) :
  invalidRole role = false -> role = "server" \/ role = "worker".
Proof.
  unfold invalidRole. intros H. apply andb_false_iff in H.
  destruct H as [H|H]; apply negb_false_iff, String.eqb_eq in H; auto.
Qed.

(** X6.  When a join with taint scheduling reaches the installer, the role
    is ["server"] and the arguments end with
    [--node-taint CriticalAddonsOnly=true:NoSchedule]. *)
Theorem join_taints_servers_only (w : World)
    (cfg : gmap (string * string) string) (role remoteHost : string)
    (allow : bool) (i : SshCommandInput) :
  In (EvSsh i) (trace (snd (CommandClusterAdd w role remoteHost allow true (initState cfg)))) ->
  Ssh_Command i = installerPath ->
  role = "server" /\ exists pre, Ssh_Args i = pre ++ taintFlag.
Proof.
  intros H Hc.
  destruct (add_installer_full _ _ _ _ _ _ _ H Hc) as (_ & Hr & _).
  destruct (add_installer _ _ _ _ _ _ _ H Hc)
    as (ifaces & s & hostname & src & Ht & _ & _ & _ & _ & ->).
  cbn [andb] in Ht.
  split.
  - destruct (invalidRole_false _ Hr) as [->| ->]; [reflexivity | discriminate Ht].
  - unfold clusterAddArgs. eexists. reflexivity.
Qed.

(** X7.  In a join with role ["server"], the arguments of the installer
    start with [server], carry the control-plane flags and the persisted,
    non-empty token, and none of the four [--disable-...] flags of a worker
    (unless the token is itself such a string). *)
Theorem join_server_flags (w : World) (cfg : gmap (string * string) string)
    (remoteHost : string) (allow taint : bool) (i : SshCommandInput) :
  In (EvSsh i)
     (trace (snd (CommandClusterAdd w "server" remoteHost allow taint (initState cfg)))) ->
  Ssh_Command i = installerPath ->
  hd_error (Ssh_Args i) = Some "server" /\
  In "--etcd-expose-metrics" (Ssh_Args i) /\
  adjacent "--kube-controller-manager-arg" "bind-address=0.0.0.0" (Ssh_Args i) /\
  adjacent "--kube-scheduler-arg" "bind-address=0.0.0.0" (Ssh_Args i) /\
  adjacent "--write-kubeconfig-mode" "0644" (Ssh_Args i) /\
  adjacent "--token" (tokenOf cfg) (Ssh_Args i) /\
  tokenOf cfg <> "" /\
  Forall (fun flag => tokenOf cfg <> flag -> ~ In flag (Ssh_Args i))
    ["--disable-etcd"; "--disable-apiserver"; "--disable-controller-manager";
     "--disable-scheduler"].
Proof.
  intros H Hc.
  destruct (add_installer_full _ _ _ _ _ _ _ H Hc) as (_ & _ & Htok & _).
  destruct (add_installer _ _ _ _ _ _ _ H Hc)
    as (ifaces & s & hostname & src & _ & _ & _ & _ & _ & ->).
  rewrite newNodeName_eq. unfold clusterAddArgs.
  destruct taint; cbn [String.eqb Ascii.eqb Bool.eqb app].
  all: split; [reflexivity|].
  all: split; [find_In|].
  all: split; [eexists (_ :: _ :: _ :: _ :: _ :: _ :: _ :: _ :: _ :: _ :: _ :: []), _;
               reflexivity|].
  all: split; [eexists (_ :: _ :: _ :: _ :: _ :: _ :: _ :: _ :: _ :: _ :: _ :: _ :: _ :: _ :: _ :: []), _;
               reflexivity|].
  all: split; [eexists (_ :: _ :: _ :: _ :: _ :: _ :: _ :: _ :: _ :: _ :: _ :: _ :: _ :: _ :: _ :: _ :: _ :: _ :: _ :: []), _;
               reflexivity|].
  all: split; [eexists (_ :: _ :: _ :: _ :: _ :: _ :: _ :: _ :: []), _; reflexivity|].
  all: split; [exact Htok|].
  all: repeat constructor; intros Hne Hin; in_cases Hin; congruence.
Qed.

(** X8.  A join that returns nil has run the installer with exit code 0,
    has seen the node it named, has copied the registry credentials to the
    remote host, has put every label of the role on the node, and has
    annotated the first node observed with the remote host. *)
Theorem join_success_reconciles (w : World) (cfg : gmap (string * string) string)
    (role remoteHost : string) (allow taint : bool) :
  let run := CommandClusterAdd w role remoteHost allow taint (initState cfg) in
  fst run = Ok tt ->
  exists name n nodes i,
    In (EvSsh i) (trace (snd run)) /\ Ssh_Command i = installerPath /\
    succeeded (CallSshCommand w i) = true /\
    flagValue "--node-name" (Ssh_Args i) = Some name /\
    waitForNodeToExist w name 20 = Ok (n :: nodes) /\
    In (EvCopyRegistryToNode remoteHost) (trace (snd run)) /\
    Forall (fun kv => In (EvLabelNode name (fst kv) (snd kv)) (trace (snd run)))
      (labelsOf role) /\
    In (EvAnnotateNode (node_Name n) "dokku.com/remote-host" remoteHost) (trace (snd run)).
Proof.
  name_run. unfold CommandClusterAdd, labelsOf. red_m.
  repeat step.
  all: end_run.
  all: intros Hev; try discriminate Hev; clear Hev.
  all: try (exfalso; eapply Split_nonempty; eassumption).
  all: try match goal with Hx : (length [] =? 0)%nat = false |- _ => discriminate Hx end.
  all: match goal with
       | |- context [EvSsh (sshInput "/tmp/k3s-installer.sh" ?a ?b ?c ?d)] =>
           eexists _, _, _, (sshInput "/tmp/k3s-installer.sh" a b c d)
       end.
  all: split; [find_In|]; split; [reflexivity|].
  all: split; [match goal with Hx : CallSshCommand _ ?p = _ |- context [CallSshCommand _ ?p] =>
                 rewrite Hx end; cbn [succeeded]; now apply negb_false_iff|].
  all: split; [apply flagValue_node_name_add|].
  all: split; [eassumption|].
  all: split; [find_In|].
  all: split; [apply List.Forall_cons; [find_In | apply List.Forall_nil] | find_In].
Qed.

(** X9.  The only command a removal runs over ssh is the uninstall script,
    on the host in the fetched node's annotation, which is not empty. *)
Theorem removal_runs_only_the_uninstall (w : World)
    (cfg : gmap (string * string) string) (nodeName : string) (i : SshCommandInput) :
  In (EvSsh i) (trace (snd (CommandClusterRemove w nodeName (initState cfg)))) ->
  exists node,
    GetNode w nodeName = Ok node /\ node_RemoteHost node <> "" /\
    i = uninstallInput (node_RemoteHost node).
Proof.
  name_run. unfold CommandClusterRemove. red_m.
  repeat step.
  all: end_run.
  all: intros Hev; in_cases Hev; injection Hev as <-.
  all: eexists; split; [reflexivity|]; split; [|reflexivity].
  all: match goal with Hx : String.eqb _ "" = false |- _ =>
         apply String.eqb_neq in Hx; exact Hx end.
Qed.

(** X10.  Once the uninstall has succeeded, a removal calls the delete of
    the node and returns what it returns: nil, or the "Unable to delete node"
    error around the cause; the uninstall is not undone. *)
Theorem removal_surfaces_delete_failure (w : World)
    (cfg : gmap (string * string) string) (nodeName : string) (node : Node) :
  isK3sInstalled w = None ->
  NewKubernetesClient w = None ->
  GetNode w nodeName = Ok node ->
  node_RemoteHost node <> "" ->
  succeeded (CallSshCommand w (uninstallInput (node_RemoteHost node))) = true ->
  let run := CommandClusterRemove w nodeName (initState cfg) in
  fst run = match DeleteNode w nodeName with
            | None => Ok tt
            | Some err => Err (Errorf "Unable to delete node: %w" [ArgW err])
            end /\
  In (EvSsh (uninstallInput (node_RemoteHost node))) (trace (snd run)) /\
  In (EvDeleteNode nodeName) (trace (snd run)).
Proof.
  intros Hk Hc Hg Hr Hs. cbv zeta. unfold CommandClusterRemove, uninstallInput in *. red_m.
  rewrite Hk, Hc. red_m. rewrite Hg. red_m.
  apply String.eqb_neq in Hr. rewrite Hr. red_m.
  unfold succeeded in Hs.
  destruct (CallSshCommand w _) as [resp|e]; [|discriminate Hs]. red_m.
  rewrite Hs. cbn [negb]. red_m.
  destruct (DeleteNode w nodeName); red_m; repeat split; find_In.
Qed.

(** ** Bootstrap, beyond the claims *)

(** X11.  Once the temporary file of the installer is created, its removal
    is the last thing a bootstrap does, however it ends; and nothing is
    removed but that file. *)
Theorem bootstrap_removes_temp_file (w : World) (cfg : gmap (string * string) string)
    (taint : bool) (f : string) :
  let run := CommandInitialize w taint (initState cfg) in
  (In (EvCreateTemp "sample") (trace (snd run)) ->
   os_CreateTemp w "sample" = Ok f ->
   last (trace (snd run)) = Some (EvRemove f)) /\
  (In (EvRemove f) (trace (snd run)) -> os_CreateTemp w "sample" = Ok f).
Proof.
  name_run. unfold CommandInitialize. red_m.
  repeat step.
  all: end_run.
  all: split; [intros Hev Hf; in_cases Hev; try discriminate Hf; injection Hf as <-; reflexivity
              | intros Hev; in_cases Hev; injection Hev as <-; reflexivity].
Qed.

(** X12.  A bootstrap leaves a persisted token alone: with a token present
    nothing is written.  What it writes, if anything, is the global [token]
    option, set to ten lower-case hexadecimal characters, which is then the
    persisted token when the write goes through; every other option is left
    as it was. *)
Theorem bootstrap_writes_only_a_missing_token (w : World)
    (cfg : gmap (string * string) string) (taint : bool) :
  let run := CommandInitialize w taint (initState cfg) in
  (tokenOf cfg <> "" ->
   store (snd run) = cfg /\
   forall p a k v, ~ In (EvPropertySet p a k v) (trace (snd run))) /\
  (forall p a k v, In (EvPropertySet p a k v) (trace (snd run)) ->
     p = "scheduler-k3s" /\ a = "--global" /\ k = "token" /\ lowerHex10 v /\
     (PropertyWrite w p a k v = None -> tokenOf (store (snd run)) = v)) /\
  (forall key, key <> ("--global", "token") -> store (snd run) !! key = cfg !! key).
Proof.
  name_run. unfold CommandInitialize, tokenOf. red_m.
  repeat step.
  all: end_run.
  all: repeat match goal with
       | Hx : (String.length _ =? 0)%nat = true |- _ => apply length_zero_string in Hx
       end.
  all: split; [intros Ht; first [contradiction | split; [reflexivity | intros ? ? ? ? Hev; in_cases Hev]]|].
  all: split; [intros ? ? ? ? Hev; in_cases Hev; injection Hev as <- <- <- <-;
                 do 3 (split; [reflexivity|]);
                 (split; [match goal with Hx : rand_Read _ _ = Ok ?src |- _ =>
                            exact (suffix_lowerHex10 _ src) end|]);
                 intros Hw;
                 first [ match goal with Hx : PropertyWrite _ _ _ _ _ = Some _ |- _ =>
                           discriminate (eq_trans (eq_sym Hw) Hx) end
                       | rewrite lookup_insert_eq; reflexivity ]
              | intros key Hkey; try reflexivity; now rewrite lookup_insert_ne].
Qed.

(** X13.  The installer a bootstrap runs is the temporary file into which
    the body fetched from [https://get.k3s.io] (status 200) was written with
    mode 0755 and which is not empty; k3s is not installed yet and both apt
    commands have succeeded. *)
Theorem bootstrap_installer_is_the_download (w : World)
    (cfg : gmap (string * string) string) (taint : bool) (i : ExecCommandInput) :
  In (EvExec i) (trace (snd (CommandInitialize w taint (initState cfg)))) ->
  In "--cluster-init" (Exec_Args i) ->
  isK3sInstalled w <> None /\
  succeeded (CallExecCommand w {| Exec_Command := "apt-get"; Exec_Args := ["update"];
                                  Exec_StreamStdio := true; Exec_CaptureOutput := false |}) = true /\
  succeeded (CallExecCommand w {| Exec_Command := "apt-get"; Exec_Args := aptPackages;
                                  Exec_StreamStdio := true; Exec_CaptureOutput := false |}) = true /\
  exists resp size,
    resty_Get w "https://get.k3s.io" = Ok (Some resp) /\ StatusCode resp = 200%Z /\
    os_CreateTemp w "sample" = Ok (Exec_Command i) /\
    WriteSliceToFile w (Exec_Command i) (Split (Body resp) "010") 493 = None /\
    os_Stat w (Exec_Command i) = Ok size /\ size <> 0%Z.
Proof.
  name_run. unfold CommandInitialize, succeeded. red_m.
  repeat step.
  all: end_run.
  all: intros Hev Hc; in_cases Hev.
  all: injection Hev as <-.
  all: try (exfalso; cbv [Exec_Args aptPackages RegistryConfigPath] in Hc; in_cases Hc; fail).
  all: repeat match goal with
       | Hx : negb _ = false |- _ => apply negb_false_iff in Hx
       end.
  all: split; [discriminate|].
  all: do 2 (split; [assumption|]).
  all: cbn [Exec_Command].
  all: do 2 eexists; split; [reflexivity|]; split; [now apply Z.eqb_eq|];
       do 3 (split; [first [reflexivity | eassumption]|]).
  all: now apply Z.eqb_neq.
Qed.

(** X14.  The arguments of the bootstrap installer end with
    [--node-taint CriticalAddonsOnly=true:NoSchedule] when taint scheduling is
    asked for, and otherwise do not contain [--node-taint] (unless the
    persisted token is that string). *)
Theorem bootstrap_taint_flag (w : World) (cfg : gmap (string * string) string)
    (taint : bool) (i : ExecCommandInput) :
  In (EvExec i) (trace (snd (CommandInitialize w taint (initState cfg)))) ->
  In "--cluster-init" (Exec_Args i) ->
  (taint = true -> exists pre, Exec_Args i = pre ++ taintFlag) /\
  (taint = false -> tokenOf cfg <> "--node-taint" -> ~ In "--node-taint" (Exec_Args i)).
Proof.
  intros Hev Hc.
  destruct (init_installer _ _ _ _ Hev Hc) as (ifaces & s & src & _ & _ & _ & ->).
  split.
  - intros ->. unfold initializeArgs. eexists. reflexivity.
  - intros -> Ht Hin. rewrite newNodeName_eq in Hin. unfold initializeArgs in Hin.
    in_cases Hin. congruence.
Qed.

(** X15.  A bootstrap that returns nil has run the installer with exit code
    0, created the registry file, applied every manifest of
    [KubernetesManifests], put every server label on the node it named,
    written the traefik template to the manifest directory with mode 0600,
    and installed the helm charts. *)
Theorem bootstrap_success_sets_up_the_node (w : World)
    (cfg : gmap (string * string) string) (taint : bool) :
  let run := CommandInitialize w taint (initState cfg) in
  fst run = Ok tt ->
  exists name i contents,
    In (EvExec i) (trace (snd run)) /\ In "--cluster-init" (Exec_Args i) /\
    succeeded (CallExecCommand w i) = true /\
    flagValue "--node-name" (Exec_Args i) = Some name /\
    In (EvTouchFile RegistryConfigPath) (trace (snd run)) /\
    Forall (fun m => In (EvApplyKubernetesManifest (manifest_Path m)) (trace (snd run)))
      KubernetesManifests /\
    Forall (fun kv => In (EvLabelNode name (fst kv) (snd kv)) (trace (snd run)))
      ServerLabels /\
    templates_ReadFile w "templates/traefik-config.yaml" = Ok contents /\
    In (EvWriteFile "/var/lib/rancher/k3s/server/manifests/traefik-custom.yaml" contents 384)
       (trace (snd run)) /\
    In EvInstallHelmCharts (trace (snd run)).
Proof.
  name_run. unfold CommandInitialize. red_m.
  repeat step.
  all: end_run.
  all: intros Hev; try discriminate Hev; clear Hev.
  all: match goal with
       | |- context [EvExec {| Exec_Command := ?f; Exec_Args := initializeArgs ?n ?t ?b;
                               Exec_StreamStdio := ?s; Exec_CaptureOutput := ?c |}] =>
           exists n, {| Exec_Command := f; Exec_Args := initializeArgs n t b;
                        Exec_StreamStdio := s; Exec_CaptureOutput := c |}
       end.
  all: eexists.
  all: split; [find_In|].
  all: split; [cbn [Exec_Args]; unfold initializeArgs; destruct taint; find_In|].
  all: split; [match goal with Hx : CallExecCommand _ ?p = _ |- context [CallExecCommand _ ?p] =>
                 rewrite Hx end; cbn [succeeded]; now apply negb_false_iff|].
  all: split; [apply flagValue_node_name_init|].
  all: split; [find_In|].
  all: split; [apply List.Forall_cons; [find_In | apply List.Forall_nil]|].
  all: split; [apply List.Forall_cons; [find_In | apply List.Forall_nil]|].
  all: split; [first [reflexivity | eassumption]|].
  all: split; find_In.
Qed.

(** ** Node names, beyond the claims *)

Lemma append_cancel_l (a x y : string) : a +:+ x = a +:+ y -> x = y.
Proof. induction a as [|c a IH]; cbn [String.app]; [easy | intros [= H]; auto]. Qed.

Lemma hex_digit_inj (a b : N) :
  (a < 16)%N -> (b < 16)%N ->
  toLowerChar (hexDigitUpper a) = toLowerChar (hexDigitUpper b) -> a = b.
Proof.
  intros Ha Hb.
  assert (Ha' : In a [0; 1; 2; 3; 4; 5; 6; 7; 8; 9; 10; 11; 12; 13; 14; 15]%N)
    by (cbn [In]; lia).
  assert (Hb' : In b [0; 1; 2; 3; 4; 5; 6; 7; 8; 9; 10; 11; 12; 13; 14; 15]%N)
    by (cbn [In]; lia).
  cbn [In] in Ha', Hb'.
  repeat (destruct Ha' as [<-|Ha']); try contradiction;
  repeat (destruct Hb' as [<-|Hb']); try contradiction;
  intros H; first [reflexivity | discriminate H].
Qed.

Lemma hex_byte_inj (x y : byte) :
  toLowerChar (hexDigitUpper (Byte.to_N x / 16)) = toLowerChar (hexDigitUpper (Byte.to_N y / 16)) ->
  toLowerChar (hexDigitUpper (Byte.to_N x mod 16)) = toLowerChar (hexDigitUpper (Byte.to_N y mod 16)) ->
  x = y.
Proof.
  intros Hh Hl.
  assert (Hx : (Byte.to_N x < 256)%N) by (pose proof (Byte.to_N_bounded x); lia).
  assert (Hy : (Byte.to_N y < 256)%N) by (pose proof (Byte.to_N_bounded y); lia).
  apply hex_digit_inj in Hh; [|apply N.Div0.div_lt_upper_bound; lia..].
  apply hex_digit_inj in Hl; [|apply N.mod_lt; lia..].
  assert (E : Byte.to_N x = Byte.to_N y).
  { rewrite (N.div_mod (Byte.to_N x) 16), (N.div_mod (Byte.to_N y) 16) by lia.
    now rewrite Hh, Hl. }
  assert (Some x = Some y) as [= ->]; [|reflexivity].
  rewrite <- (Byte.of_to_N x), <- (Byte.of_to_N y). now rewrite E.
Qed.

Lemma suffix_inj (To_LowerCase : Z -> Z) (b b' : list byte) :
  ToLower To_LowerCase (SprintfX b) = ToLower To_LowerCase (SprintfX b') -> b = b'.
Proof.
  rewrite !ToLower_hex.
  revert b'. induction b as [|x b IH]; intros [|y b']; cbn [SprintfX lowerBytes];
    try discriminate; [reflexivity|].
  intros [= Hh Hl Hr]. f_equal; [now apply hex_byte_inj | now apply IH].
Qed.

(** X16.  For one seed, two node names are equal only if the random bytes
    are: the suffix determines the bytes. *)
Theorem node_names_differ_with_the_random_bytes (To_LowerCase : Z -> Z) (seed : string)
    (b b' : list byte) :
  newNodeName To_LowerCase seed b = newNodeName To_LowerCase seed b' -> b = b'.
Proof.
  rewrite !newNodeName_eq. intros H.
  apply (suffix_inj To_LowerCase). do 3 apply append_cancel_l in H. exact H.
Qed.

Lemma toLowerChar_ascii (c : ascii) :
  (byteOf c <? 128)%Z = true -> (byteOf (toLowerChar c) <? 128)%Z = true.
Proof. destruct c as [[] [] [] [] [] [] [] []]; vm_compute; congruence. Qed.

Lemma lowerBytes_ascii (s : string) : isASCII s = true -> isASCII (lowerBytes s) = true.
Proof.
  induction s as [|c s IH]; [reflexivity|].
  cbn [isASCII lowerBytes]. change utf8.RuneSelf with 128%Z.
  intros [Hc Hs]%andb_prop. now rewrite (toLowerChar_ascii c Hc), IH.
Qed.

Lemma lowerBytes_idem (s : string) : lowerBytes (lowerBytes s) = lowerBytes s.
Proof. apply lowerBytes_lowerCase, lowerCase_lowerBytes. Qed.

(** X17.  The node name does not tell a dot in the seed from a dash,
    whatever the bytes of the seed; nor an ASCII seed from its lower-case
    form.  Such seeds get the same name for the same random bytes. *)
Theorem node_name_ignores_case_and_dots (To_LowerCase : Z -> Z) (seed : string)
    (b : list byte) :
  newNodeName To_LowerCase (ReplaceAll seed "." "-") b = newNodeName To_LowerCase seed b /\
  (isASCII seed = true ->
   newNodeName To_LowerCase (ToLower To_LowerCase seed) b = newNodeName To_LowerCase seed b).
Proof.
  rewrite !newNodeName_eq. split.
  - rewrite !ToLower_Map. unfold Map at 1 3. now rewrite mapRunes_replace.
  - intros Hs. rewrite !(ToLower_ascii _ seed Hs).
    rewrite (ToLower_ascii _ _ (lowerBytes_ascii _ Hs)). now rewrite lowerBytes_idem.
Qed.

(** A host name beyond ASCII goes through the case tables, and a byte that
    is no UTF-8 comes out as the replacement character. *)
Example names_beyond_ascii :
  newNodeName Demo.latin1 "École.example" [x01; x02; x03; x04; x05]
  = "ip-école-example-0102030405" /\
  newNodeName Demo.latin1 (String "255" "Host") [x01; x02; x03; x04; x05]
  = "ip-" +:+ utf8.AppendRune utf8.RuneError +:+ "host-0102030405".
Proof. split; vm_compute; reflexivity. Qed.

(** ** Guards and failures before the first command *)

(** X18.  When the network interfaces cannot be listed, or the addresses of
    the configured interface cannot, bootstrap and join (their earlier checks
    passed) return that failure with the state untouched, so before any
    command; the second failure names the interface. *)
Theorem network_failures_abort_before_any_command (w : World)
    (cfg : gmap (string * string) string) (e : error) :
  let networkInterface := networkInterfaceOf w cfg in
  let failed :=
    match net_Interfaces w with
    | Err err => Err (Errorf "Unable to get network interfaces: %w" [ArgW err])
    | Ok ifaces => scanInterfaces networkInterface ifaces ""
    end in
  failed = Err e ->
  (isK3sInstalled w <> None ->
   forall taint, CommandInitialize w taint (initState cfg) = (Err e, initState cfg)) /\
  (isK3sInstalled w = None -> tokenOf cfg <> "" ->
   forall role remoteHost allow taint,
     invalidRole role = false -> taint && String.eqb role "worker" = false ->
     CommandClusterAdd w role remoteHost allow taint (initState cfg)
     = (Err e, initState cfg)) /\
  (forall ifaces, net_Interfaces w = Ok ifaces ->
     exists err, e = Errorf "Unable to get network addresses for interface %s: %w"
                       [ArgS networkInterface; ArgW err]).
Proof.
  cbv zeta. unfold networkInterfaceOf, tokenOf, invalidRole. intros Hf.
  split; [|split].
  - intros Hk taint. unfold CommandInitialize. red_m.
    destruct (isK3sInstalled w); [|contradiction]. red_m.
    destruct (net_Interfaces w) as [ifaces|err]; red_m; [|congruence].
    rewrite Hf. reflexivity.
  - intros Hk Ht role remoteHost allow taint Hr Hw. unfold CommandClusterAdd. red_m.
    rewrite Hk. red_m. rewrite Hr. red_m.
    destruct (String.length _ =? 0)%nat eqn:Hl;
      [now apply length_zero_string in Hl|]. red_m.
    rewrite Hw. red_m.
    destruct (net_Interfaces w) as [ifaces|err]; red_m; [|congruence].
    rewrite Hf. reflexivity.
  - intros ifaces Hi. rewrite Hi in Hf. now apply scanInterfaces_error in Hf.
Qed.

(** X19.  Bootstrap refuses a host on which k3s is installed; join,
    removal and uninstall refuse a host on which it is not; each with its
    own error and the state untouched. *)
Theorem commands_check_the_installation_first (w : World)
    (cfg : gmap (string * string) string) :
  (isK3sInstalled w = None ->
   forall taint,
     CommandInitialize w taint (initState cfg)
     = (Err (Errorf "k3s already installed, cannot re-initialize k3s" []), initState cfg)) /\
  (isK3sInstalled w <> None ->
   (forall role remoteHost allow taint,
      CommandClusterAdd w role remoteHost allow taint (initState cfg)
      = (Err (Errorf "k3s not installed, cannot join cluster" []), initState cfg)) /\
   (forall nodeName,
      CommandClusterRemove w nodeName (initState cfg)
      = (Err (Errorf "k3s not installed, cannot remove node" []), initState cfg)) /\
   CommandUninstall w (initState cfg)
   = (Err (Errorf "k3s not installed, cannot uninstall" []), initState cfg)).
Proof.
  split.
  - intros Hk taint. unfold CommandInitialize. red_m. rewrite Hk. reflexivity.
  - intros Hk. destruct (isK3sInstalled w) as [e0|] eqn:E; [|contradiction].
    repeat split; intros;
      unfold CommandClusterAdd, CommandClusterRemove, CommandUninstall; red_m;
      rewrite E; reflexivity.
Qed.

(** ** The other commands *)

(** X20.  [CommandUninstall] returns nil exactly when k3s is installed and
    the uninstall script came back with exit code 0 and no error; the script
    is the only local command it runs, and only with k3s installed; it runs
    nothing over ssh and leaves the configuration as it was. *)
Theorem uninstall_outcome (w : World) (cfg : gmap (string * string) string) :
  let run := CommandUninstall w (initState cfg) in
  (fst run = Ok tt <->
   isK3sInstalled w = None /\ succeeded (CallExecCommand w uninstallerInput) = true) /\
  (forall i, In (EvExec i) (trace (snd run)) ->
     i = uninstallerInput /\ isK3sInstalled w = None) /\
  (forall i, ~ In (EvSsh i) (trace (snd run))) /\
  store (snd run) = cfg.
Proof.
  name_run. unfold CommandUninstall, succeeded. red_m.
  repeat step.
  all: end_run.
  all: split; [split; [intros Hev; try discriminate Hev | intros [Hk Hs]; try discriminate]|].
  all: try (split; [reflexivity | now apply negb_false_iff]).
  all: try reflexivity.
  all: try (exfalso; apply negb_true_iff in Heqb; congruence).
  all: split; [intros i Hev; in_cases Hev; injection Hev as <-; split; reflexivity|].
  all: split; [intros i Hev; in_cases Hev | reflexivity].
Qed.

(** X21.  [CommandClusterList] rejects a format other than ["stdout"] and
    ["json"] with the state untouched, whatever is installed; it prints
    nothing when it returns an error; and when it returns nil it has printed
    once: for ["stdout"] the table made of the header and one row per node,
    in the order of the API, for ["json"] the marshalled nodes. *)
Theorem list_prints_once_or_fails (w : World) (KNode : Type)
    (ListNodes : result (list KNode)) (kubernetesNodeToNode : KNode -> Node)
    (Node_String : Node -> string) (SimpleFormat : list string -> string)
    (json_Marshal : list Node -> result string)
    (cfg : gmap (string * string) string) (format : string) :
  let run := CommandClusterList w KNode ListNodes kubernetesNodeToNode Node_String
               SimpleFormat json_Marshal format (initState cfg) in
  (format <> "stdout" -> format <> "json" ->
   run = (Err (Errorf "Invalid format: %s" [ArgS format]), initState cfg)) /\
  (forall e, fst run = Err e -> forall fn m, ~ In (EvLog fn m) (trace (snd run))) /\
  (fst run = Ok tt ->
   exists nodes text,
     ListNodes = Ok nodes /\
     trace (snd run) = [EvNewKubernetesClient; EvLog "fmt.Println" text] /\
     (format = "stdout" ->
      text = SimpleFormat ("name|ready|roles|version"
                             :: map (fun n => Node_String (kubernetesNodeToNode n)) nodes)) /\
     (format = "json" -> json_Marshal (map kubernetesNodeToNode nodes) = Ok text)).
Proof.
  name_run. unfold CommandClusterList. red_m.
  repeat step.
  all: end_run.
  all: split; [intros H1 H2; apply String.eqb_neq in H1, H2;
               repeat match goal with
                      | Hx : context [String.eqb _ "stdout"] |- _ =>
                          tryif constr_eq Hx H1 then fail else rewrite H1 in Hx
                      | Hx : context [String.eqb _ "json"] |- _ =>
                          tryif constr_eq Hx H2 then fail else rewrite H2 in Hx
                      end;
               first [reflexivity | discriminate]|].
  all: split; [intros e' He fn m Hev; first [discriminate He | in_cases Hev]|].
  all: intros Hok; try discriminate Hok.
  all: do 2 eexists; split; [reflexivity|]; split; [reflexivity|].
  all: split; intros Hf; subst format; try discriminate.
  all: first [ now rewrite map_map | assumption ].
Qed.

Lemma reportApps_shape (ReportSingleApp : string -> string -> string -> option error)
    (format infoFlag : string) (apps reported : list string) :
  let out := reportApps ReportSingleApp apps format infoFlag reported in
  exists done rest,
    snd out = reported ++ done /\
    apps = done ++ rest /\
    Forall (fun a => ReportSingleApp a format infoFlag = None) (removelast done) /\
    match fst out with
    | None => rest = [] /\ Forall (fun a => ReportSingleApp a format infoFlag = None) done
    | Some err => exists a, List.last done a = a /\ done <> [] /\
                            ReportSingleApp (List.last done a) format infoFlag = Some err
    end.
Proof.
  cbv zeta. revert reported. induction apps as [|a apps IH]; intros reported.
  - exists [], []. cbn. rewrite app_nil_r. repeat split; constructor.
  - cbn [reportApps]. destruct (ReportSingleApp a format infoFlag) as [err|] eqn:E.
    + exists [a], apps. cbn. repeat split; try constructor.
      exists a. repeat split; [discriminate | exact E].
    + destruct (IH (reported ++ [a])) as (done & rest & Hs & Ha & Hp & Hl).
      exists (a :: done), rest. rewrite Hs, <- app_assoc. cbn [app].
      split; [reflexivity|]. split; [now rewrite Ha|].
      split.
      * destruct done as [|d done]; [constructor|].
        change (removelast (a :: d :: done)) with (a :: removelast (d :: done)).
        constructor; assumption.
      * destruct (fst (reportApps ReportSingleApp apps format infoFlag (reported ++ [a]))).
        -- destruct Hl as (x & Hx & Hne & Hr).
           destruct done as [|d done]; [contradiction|].
           exists x. change (List.last (a :: d :: done) x) with (List.last (d :: done) x).
           repeat split; [exact Hx | discriminate | exact Hr].
        -- destruct Hl as [-> Hall]. split; [reflexivity | constructor; assumption].
Qed.

(** X22.  [CommandReport] without an app name reports the apps in the order
    [DokkuApps] gives them and stops at the first one whose report fails,
    returning that error as it is; it returns nil only when every app was
    reported. *)
Theorem report_stops_at_the_first_failure (DokkuApps : result (list string))
    (ReportSingleApp : string -> string -> string -> option error)
    (format infoFlag : string) (apps : list string) :
  DokkuApps = Ok apps ->
  let out := CommandReport DokkuApps ReportSingleApp "" format infoFlag in
  exists rest,
    apps = snd out ++ rest /\
    Forall (fun a => ReportSingleApp a format infoFlag = None) (removelast (snd out)) /\
    match fst out with
    | None => rest = [] /\
              Forall (fun a => ReportSingleApp a format infoFlag = None) (snd out)
    | Some err => exists a, last (snd out) = Some a /\
                            ReportSingleApp a format infoFlag = Some err
    end.
Proof.
  intros Hd. cbv zeta. unfold CommandReport. cbn [String.length Nat.eqb]. rewrite Hd.
  destruct (reportApps_shape ReportSingleApp format infoFlag apps []) as (done & rest & Hs & Ha & Hp & Hl).
  cbn [app] in Hs. rewrite Hs. exists rest. split; [exact Ha|]. split; [exact Hp|].
  destruct (fst (reportApps ReportSingleApp apps format infoFlag [])); [|exact Hl].
  destruct Hl as (a & _ & Hne & Hr). exists (List.last done a). split; [|exact Hr].
  clear -Hne. induction done as [|d done IH]; [contradiction|].
  destruct done as [|d' done]; [reflexivity|].
  change (List.last (d :: d' :: done) a) with (List.last (d' :: done) a).
  rewrite last_cons. rewrite IH by discriminate. reflexivity.
Qed.

(** ** The further theorems at work on concrete runs *)

Lemma join_targets_remote_host_witness :
  Ssh_RemoteHost (Runs.joinInstaller "worker" false) = Demo.worker1 /\
  Ssh_AllowUknownHosts (Runs.joinInstaller "worker" false) = false /\
  Ssh_StreamStdio (Runs.joinInstaller "worker" false) = true.
Proof.
  apply (proj1 (join_targets_remote_host Runs.control Runs.token "worker" Demo.worker1
                  false false)).
  solve_In.
Defined.

Lemma join_labels_follow_role_witness :
  In ("node-role.kubernetes.io/role", "worker") (labelsOf "worker").
Proof.
  apply (proj1 (join_labels_follow_role Runs.control Runs.token "worker" Demo.worker1
                  false false "ip-worker1-0102030405" "node-role.kubernetes.io/role"
                  "worker" ltac:(solve_In))).
Defined.

Lemma join_installer_needs_preparation_witness :
  succeeded (CallExecCommand Runs.control k3sVersionInput) = true /\
  Forall (fun p => succeeded (CallSshCommand Runs.control p) = true)
    (joinPreparation false Demo.worker1).
Proof.
  apply (join_installer_needs_preparation Runs.control Runs.token "worker" Demo.worker1
           false false (Runs.joinInstaller "worker" false)); [solve_In | reflexivity].
Defined.

Lemma join_needs_three_spaces_witness :
  exists out,
    CallExecCommand Runs.control k3sVersionInput = Ok out /\
    countChar " " (firstLine (Stdout out)) = 3.
Proof.
  apply (join_needs_three_spaces Runs.control Runs.token "worker" Demo.worker1
           false false (Runs.joinInstaller "worker" false)); [solve_In | reflexivity].
Defined.

Lemma join_taints_servers_only_witness :
  "server" = "server" /\ exists pre, Ssh_Args (Runs.joinInstaller "server" true) = pre ++ taintFlag.
Proof.
  apply (join_taints_servers_only Runs.control Runs.token "server" Demo.worker1 false
           (Runs.joinInstaller "server" true)); [solve_In | reflexivity].
Defined.

Lemma join_server_flags_witness :
  hd_error (Ssh_Args (Runs.joinInstaller "server" false)) = Some "server".
Proof.
  apply (proj1 (join_server_flags Runs.control Runs.token Demo.worker1 false false
                  (Runs.joinInstaller "server" false) ltac:(solve_In) eq_refl)).
Defined.

Lemma join_success_reconciles_witness :
  exists name n nodes i,
    In (EvSsh i) (trace (snd (Runs.join "worker" false))) /\ Ssh_Command i = installerPath /\
    succeeded (CallSshCommand Runs.control i) = true /\
    flagValue "--node-name" (Ssh_Args i) = Some name /\
    waitForNodeToExist Runs.control name 20 = Ok (n :: nodes) /\
    In (EvCopyRegistryToNode Demo.worker1) (trace (snd (Runs.join "worker" false))) /\
    Forall (fun kv => In (EvLabelNode name (fst kv) (snd kv))
                        (trace (snd (Runs.join "worker" false))))
      (labelsOf "worker") /\
    In (EvAnnotateNode (node_Name n) "dokku.com/remote-host" Demo.worker1)
       (trace (snd (Runs.join "worker" false))).
Proof.
  apply (join_success_reconciles Runs.control Runs.token "worker" Demo.worker1 false false).
  vm_compute. reflexivity.
Defined.

Lemma removal_runs_only_the_uninstall_witness :
  exists node,
    GetNode Runs.control "n1" = Ok node /\ node_RemoteHost node <> "" /\
    uninstallInput "root@worker1" = uninstallInput (node_RemoteHost node).
Proof.
  apply (removal_runs_only_the_uninstall Runs.control Demo.noConfig "n1"
           (uninstallInput "root@worker1")).
  solve_In.
Defined.

Lemma removal_surfaces_delete_failure_witness :
  fst (CommandClusterRemove Runs.control "n1" (initState Demo.noConfig)) = Ok tt.
Proof.
  apply (proj1 (removal_surfaces_delete_failure Runs.control Demo.noConfig "n1"
                  {| node_Name := "n1"; node_Ready := true; node_Roles := [];
                     node_Version := "v1.28.5+k3s1"; node_RemoteHost := "root@worker1" |}
                  eq_refl eq_refl eq_refl ltac:(discriminate) eq_refl)).
Defined.

Lemma bootstrap_removes_temp_file_witness :
  last (trace (snd (Runs.bootstrap Demo.noConfig))) = Some (EvRemove "/tmp/sample123").
Proof.
  apply (proj1 (bootstrap_removes_temp_file Runs.fresh Demo.noConfig false "/tmp/sample123"));
    [solve_In | reflexivity].
Defined.

Lemma bootstrap_writes_only_a_missing_token_witness :
  store (snd (Runs.bootstrap Runs.token)) = Runs.token /\
  tokenOf (store (snd (Runs.bootstrap Demo.noConfig))) = "0102030405" /\
  store (snd (Runs.bootstrap Demo.noConfig)) !! ("--global", "namespace")
  = Demo.noConfig !! ("--global", "namespace").
Proof.
  split; [|split].
  - apply (proj1 (bootstrap_writes_only_a_missing_token Runs.fresh Runs.token false)).
    vm_compute. discriminate.
  - apply (proj1 (proj2 (bootstrap_writes_only_a_missing_token Runs.fresh Demo.noConfig false))
             "scheduler-k3s" "--global" "token" "0102030405"); [solve_In | reflexivity].
  - apply (proj2 (proj2 (bootstrap_writes_only_a_missing_token Runs.fresh Demo.noConfig false))).
    discriminate.
Defined.

Lemma bootstrap_installer_is_the_download_witness :
  os_CreateTemp Runs.fresh "sample" = Ok (Exec_Command (Runs.bootstrapInstaller "abc123")).
Proof.
  destruct (bootstrap_installer_is_the_download Runs.fresh Runs.token false
              (Runs.bootstrapInstaller "abc123"))
    as (_ & _ & _ & resp & size & _ & _ & Hf & _); [solve_In | solve_In | exact Hf].
Defined.

Lemma bootstrap_taint_flag_witness :
  ~ In "--node-taint" (Exec_Args (Runs.bootstrapInstaller "abc123")).
Proof.
  apply (proj2 (bootstrap_taint_flag Runs.fresh Runs.token false
                  (Runs.bootstrapInstaller "abc123") ltac:(solve_In) ltac:(solve_In)));
    [reflexivity | vm_compute; discriminate].
Defined.

Lemma bootstrap_success_sets_up_the_node_witness :
  exists name i contents,
    In (EvExec i) (trace (snd (Runs.bootstrap Runs.token))) /\ In "--cluster-init" (Exec_Args i) /\
    succeeded (CallExecCommand Runs.fresh i) = true /\
    flagValue "--node-name" (Exec_Args i) = Some name /\
    In (EvTouchFile RegistryConfigPath) (trace (snd (Runs.bootstrap Runs.token))) /\
    Forall (fun m => In (EvApplyKubernetesManifest (manifest_Path m))
                       (trace (snd (Runs.bootstrap Runs.token))))
      KubernetesManifests /\
    Forall (fun kv => In (EvLabelNode name (fst kv) (snd kv))
                        (trace (snd (Runs.bootstrap Runs.token))))
      ServerLabels /\
    templates_ReadFile Runs.fresh "templates/traefik-config.yaml" = Ok contents /\
    In (EvWriteFile "/var/lib/rancher/k3s/server/manifests/traefik-custom.yaml" contents 384)
       (trace (snd (Runs.bootstrap Runs.token))) /\
    In EvInstallHelmCharts (trace (snd (Runs.bootstrap Runs.token))).
Proof.
  apply (bootstrap_success_sets_up_the_node Runs.fresh Runs.token false).
  vm_compute. reflexivity.
Defined.

Lemma node_names_differ_with_the_random_bytes_witness : [x01; x02] = [x01; x02].
Proof.
  apply (node_names_differ_with_the_random_bytes Demo.latin1 "worker1" [x01; x02] [x01; x02]).
  reflexivity.
Defined.

Lemma network_failures_abort_before_any_command_witness :
  CommandInitialize (Runs.withInterfaces (Ok [Demo.lo; Runs.brokenEth0]) false) false
    (initState Demo.noConfig)
  = (Err (Errorf "Unable to get network addresses for interface %s: %w"
            [ArgS "eth0"; ArgW (External "route ip+net: netlinkrib")]),
     initState Demo.noConfig) /\
  CommandClusterAdd (Runs.withInterfaces (Err (External "netlink down")) true)
    "worker" Demo.worker1 false false (initState Runs.token)
  = (Err (Errorf "Unable to get network interfaces: %w" [ArgW (External "netlink down")]),
     initState Runs.token).
Proof.
  split.
  - apply (proj1 (network_failures_abort_before_any_command
                    (Runs.withInterfaces (Ok [Demo.lo; Runs.brokenEth0]) false)
                    Demo.noConfig _ eq_refl)).
    vm_compute. discriminate.
  - apply (proj1 (proj2 (network_failures_abort_before_any_command
                           (Runs.withInterfaces (Err (External "netlink down")) true)
                           Runs.token _ eq_refl)));
      try reflexivity.
    vm_compute. discriminate.
Defined.

Lemma commands_check_the_installation_first_witness :
  CommandInitialize Runs.control false (initState Demo.noConfig)
  = (Err (Errorf "k3s already installed, cannot re-initialize k3s" []),
     initState Demo.noConfig) /\
  CommandUninstall Runs.fresh (initState Demo.noConfig)
  = (Err (Errorf "k3s not installed, cannot uninstall" []), initState Demo.noConfig).
Proof.
  split.
  - apply (proj1 (commands_check_the_installation_first Runs.control Demo.noConfig) eq_refl).
  - apply (proj2 (commands_check_the_installation_first Runs.fresh Demo.noConfig)).
    vm_compute. discriminate.
Defined.

Lemma uninstall_outcome_witness :
  fst (CommandUninstall Runs.control (initState Demo.noConfig)) = Ok tt /\
  (isK3sInstalled Runs.fresh = None /\
   succeeded (CallExecCommand Runs.fresh uninstallerInput) = true -> False).
Proof.
  split.
  - apply (proj1 (uninstall_outcome Runs.control Demo.noConfig)). split; reflexivity.
  - intros H.
    apply (proj2 (proj1 (uninstall_outcome Runs.fresh Demo.noConfig))) in H.
    vm_compute in H. discriminate H.
Defined.

Lemma list_prints_once_or_fails_witness :
  (exists nodes text,
     Runs.listed = Ok nodes /\
     trace (snd (CommandClusterList Runs.control string Runs.listed Demo.joined Runs.row
                   (String.concat "; ") Runs.noJson "stdout" (initState Demo.noConfig)))
     = [EvNewKubernetesClient; EvLog "fmt.Println" text] /\
     ("stdout" = "stdout" ->
      text = String.concat "; "
               ("name|ready|roles|version"
                  :: map (fun n => Runs.row (Demo.joined n)) nodes)) /\
     ("stdout" = "json" -> Runs.noJson (map Demo.joined nodes) = Ok text)) /\
  (forall fn m,
     ~ In (EvLog fn m)
          (trace (snd (CommandClusterList Runs.control string Runs.listed Demo.joined Runs.row
                         (String.concat "; ") Runs.noJson "json" (initState Demo.noConfig))))) /\
  CommandClusterList Runs.control string Runs.listed Demo.joined Runs.row
    (String.concat "; ") Runs.noJson "yaml" (initState Demo.noConfig)
  = (Err (Errorf "Invalid format: %s" [ArgS "yaml"]), initState Demo.noConfig).
Proof.
  split; [|split].
  - apply (proj2 (proj2 (list_prints_once_or_fails Runs.control string Runs.listed
                           Demo.joined Runs.row (String.concat "; ") Runs.noJson
                           Demo.noConfig "stdout"))).
    reflexivity.
  - apply (proj1 (proj2 (list_prints_once_or_fails Runs.control string Runs.listed
                           Demo.joined Runs.row (String.concat "; ") Runs.noJson
                           Demo.noConfig "json"))
             (Errorf "Unable to marshal json: %w" [ArgW (External "unsupported value")])).
    reflexivity.
  - apply (proj1 (list_prints_once_or_fails Runs.control string Runs.listed
                    Demo.joined Runs.row (String.concat "; ") Runs.noJson
                    Demo.noConfig "yaml")); discriminate.
Defined.

Lemma report_stops_at_the_first_failure_witness :
  exists rest,
    ["blog"; "shop"; "wiki"]
    = snd (CommandReport Runs.apps Runs.reportShopFails "" "stdout" "") ++ rest /\
    Forall (fun a => Runs.reportShopFails a "stdout" "" = None)
      (removelast (snd (CommandReport Runs.apps Runs.reportShopFails "" "stdout" ""))) /\
    match fst (CommandReport Runs.apps Runs.reportShopFails "" "stdout" "") with
    | None => rest = [] /\
              Forall (fun a => Runs.reportShopFails a "stdout" "" = None)
                (snd (CommandReport Runs.apps Runs.reportShopFails "" "stdout" ""))
    | Some err => exists a,
        last (snd (CommandReport Runs.apps Runs.reportShopFails "" "stdout" "")) = Some a /\
        Runs.reportShopFails a "stdout" "" = Some err
    end.
Proof.
  apply (report_stops_at_the_first_failure Runs.apps Runs.reportShopFails "stdout" ""
           ["blog"; "shop"; "wiki"]).
  reflexivity.
Defined.

Lemma node_name_ignores_case_and_dots_witness :
  newNodeName Demo.latin1 (ToLower Demo.latin1 "Node.Example") [x01; x02]
  = newNodeName Demo.latin1 "Node.Example" [x01; x02].
Proof.
  apply (proj2 (node_name_ignores_case_and_dots Demo.latin1 "Node.Example" [x01; x02])).
  reflexivity.
Defined.
